(** * zap2xml.py: the windowed fetch-cache pipeline and its JSON to XMLTV transform

    A shallow embedding of [zap2xml.py] and the properties of its planner,
    bucket cache, fetcher and listings transform.

    Conventions of the embedding:
    - a Python [str] and a Python [bytes] are both a [string], the UTF-8
      bytes of the text; operations that count characters are exact on ASCII
      text;
    - a Python [int] is a [Z];
    - the cache directory of one postal code is a [gmap string string] from
      file name to file content (plain files only, no sub-directories);
    - an exception is a value of [exn], carried by [result];
    - the network is an oracle answering the n-th request, so that two
      requests of one URL may be answered differently. *)

From Stdlib Require Import ZArith List String Ascii Lia Bool.
From stdpp Require Import base gmap strings list fin_maps.

Set Warnings "-register-all".

Open Scope string_scope.
Open Scope list_scope.
Open Scope Z_scope.

(** ** Python built-ins used by the program *)

Module Py.

(** Exceptions the program can raise. *)
Inductive exn :=
| ZeroDivisionError
| NameError (var : string)
| HTTPError (code : Z)
| ValueError
| JSONDecodeError
| KeyError (key : string)
| TypeError.

Inductive result (A : Type) :=
| Ok (a : A)
| Raise (e : exn).
Arguments Ok {A} a.
Arguments Raise {A} e.

Definition bind {A B} (r : result A) (k : A -> result B) : result B :=
  match r with
  | Ok a => k a
  | Raise e => Raise e
  end.

Definition digit_of (c : ascii) : option Z :=
  let n := Z.of_nat (nat_of_ascii c) in
  if (48 <=? n) && (n <=? 57) then Some (n - 48) else None.

Definition ascii_of_digit (d : Z) : ascii := ascii_of_nat (Z.to_nat (48 + d)).

(** The white space that [int()] skips around an ASCII text: tab, line
    feed, vertical tab, form feed, carriage return and space. The bytes 28
    to 31, for which [str.isspace] also holds, are not skipped. *)
Definition isspace (c : ascii) : bool :=
  let n := Z.of_nat (nat_of_ascii c) in
  ((9 <=? n) && (n <=? 13)) || (n =? 32).

Fixpoint lstrip (s : string) : string :=
  match s with
  | String c s' => if isspace c then lstrip s' else s
  | EmptyString => EmptyString
  end.

Fixpoint rstrip (s : string) : string :=
  match s with
  | String c s' =>
      match rstrip s' with
      | EmptyString => if isspace c then EmptyString else String c EmptyString
      | t => String c t
      end
  | EmptyString => EmptyString
  end.

Definition strip (s : string) : string := rstrip (lstrip s).

(** The digits of a base-10 literal: digits, with single underscores allowed
    between two digits. [acc] is the value read so far and [prev_digit] tells
    whether the previous character was a digit. *)
Fixpoint int_digits (acc : Z) (prev_digit : bool) (s : string) : option Z :=
  match s with
  | EmptyString => if prev_digit then Some acc else None
  | String c s' =>
      match digit_of c with
      | Some d => int_digits (10 * acc + d) true s'
      | None =>
          if Ascii.eqb c "_" && prev_digit
          then match s' with
               | String c' _ =>
                   match digit_of c' with
                   | Some _ => int_digits acc false s'
                   | None => None
                   end
               | EmptyString => None
               end
          else None
      end
  end.

(** [int(s)] and [int(s, 10)] on a [str]: surrounding white space is
    dropped, then an optional sign and a digit sequence are read; [None]
    stands for [ValueError]. *)
Definition int (s : string) : option Z :=
  match strip s with
  | String "-" t => Z.opp <$> int_digits 0 false t
  | String "+" t => int_digits 0 false t
  | t => int_digits 0 false t
  end.

(** Decimal digits of a non-negative number, most significant first. The
    fuel is the number of binary digits, which bounds the decimal ones. *)
Fixpoint digits_fuel (fuel : nat) (n : Z) (acc : string) : string :=
  match fuel with
  | O => acc
  | S k =>
      let acc' := String (ascii_of_digit (n mod 10)) acc in
      if n <? 10 then acc' else digits_fuel k (n / 10) acc'
  end.

(** [str(n)] on an [int]. *)
Definition str (n : Z) : string :=
  if n <? 0
  then String "-" (digits_fuel (S (Z.to_nat (Z.log2 (- n)))) (- n) EmptyString)
  else digits_fuel (S (Z.to_nat (Z.log2 n))) n EmptyString.

(** ['%02d' % n]: at least two characters, padded with a zero on the left;
    a negative number already has two. *)
Definition fmt_02d (n : Z) : string :=
  let s := str n in
  if (String.length s <? 2)%nat then String "0" s else s.

(** [s.replace(old, new)] for a non-empty [old]: occurrences are replaced
    from the left and do not overlap. [skip] counts the characters of the
    occurrence being replaced that are still to be dropped. *)
Fixpoint replace_from (old new : string) (skip : nat) (s : string) : string :=
  match s with
  | EmptyString => EmptyString
  | String c s' =>
      match skip with
      | S k => replace_from old new k s'
      | O =>
          if String.prefix old s
          then new +:+ replace_from old new (String.length old - 1) s'
          else String c (replace_from old new O s')
      end
  end.

Definition replace (old new s : string) : string := replace_from old new O s.

(** [s.split(sep)] for a one-character separator. The list is never empty. *)
Fixpoint split (sep : ascii) (s : string) : list string :=
  match s with
  | EmptyString => [EmptyString]
  | String c s' =>
      if Ascii.eqb c sep then EmptyString :: split sep s'
      else match split sep s' with
           | w :: ws => String c w :: ws
           | [] => [String c EmptyString]
           end
  end.

(** [s[n:]] for a non-negative [n]. *)
Fixpoint drop_chars (n : nat) (s : string) : string :=
  match n, s with
  | S k, String _ s' => drop_chars k s'
  | _, _ => s
  end.

(** [x in xs] for a list of strings. *)
Definition contains (x : string) (xs : list string) : bool :=
  existsb (String.eqb x) xs.

(** Truth value of a [str]. *)
Definition truthy (s : string) : bool :=
  match s with EmptyString => false | _ => true end.

(** Truth value of a value that is [None] or a [str]. *)
Definition truthy_opt (o : option string) : bool :=
  match o with Some s => truthy s | None => false end.

(** [range(n)]. *)
Definition range (n : Z) : list Z := Z.of_nat <$> seq 0 (Z.to_nat n).

(** A [for] loop whose body may raise: the state is threaded through the
    items from the left and the first exception ends the loop. *)
Fixpoint for_each {A B} (body : A -> B -> result A) (items : list B) (a : A)
  : result A :=
  match items with
  | [] => Ok a
  | b :: items' =>
      match body a b with
      | Ok a' => for_each body items' a'
      | Raise e => Raise e
      end
  end.

Definition hex_digit (n : Z) : ascii :=
  if n <? 10 then ascii_of_digit n else ascii_of_nat (Z.to_nat (55 + n)).

(** The characters [urllib.parse.quote] never escapes: ASCII letters,
    digits and [_.-~]. *)
Definition always_safe (c : ascii) : bool :=
  let n := Z.of_nat (nat_of_ascii c) in
  ((48 <=? n) && (n <=? 57)) || ((65 <=? n) && (n <=? 90))
  || ((97 <=? n) && (n <=? 122))
  || (n =? 95) || (n =? 46) || (n =? 45) || (n =? 126).

(** [urllib.parse.quote_plus(s)]: a space becomes [+], every other byte
    that is not always safe becomes [%XX]. *)
Fixpoint quote_plus (s : string) : string :=
  match s with
  | EmptyString => EmptyString
  | String c s' =>
      let n := Z.of_nat (nat_of_ascii c) in
      if always_safe c then String c (quote_plus s')
      else if n =? 32 then String "+" (quote_plus s')
      else String "%" (String (hex_digit (n / 16))
                         (String (hex_digit (n mod 16)) (quote_plus s')))
  end.

(** [urllib.parse.urlencode(d)] for a dict whose keys and values have
    already been turned into [str]. *)
Fixpoint urlencode (d : list (string * string)) : string :=
  match d with
  | [] => EmptyString
  | [(k, v)] => quote_plus k +:+ "=" +:+ quote_plus v
  | (k, v) :: d' => quote_plus k +:+ "=" +:+ quote_plus v +:+ "&" +:+ urlencode d'
  end.

End Py.

Import Py.

Notation "x <- c1 ;; c2" := (Py.bind c1 (fun x => c2))
  (at level 100, c1 at next level, right associativity).


(** ** The bucket cache and the feed fetcher *)

(** What a run can observe and change outside the process: the files of the
    cache directory, the URLs opened so far and the delays slept so far
    (both oldest first). *)
Record world := World {
  files : gmap string string;
  requests : list string;
  slept : list Z
}.

Definition set_files (fs : gmap string string) (w : world) : world :=
  World fs (requests w) (slept w).

(** The payload stored in place of a 400 answer. The apostrophes of the
    text below stand for the double quotes of the source. *)
Definition quoted (s : string) : string :=
  replace "'" (String "034"%char EmptyString) s.

Definition placeholder : string :=
  quoted "{'note': 'Got a 400 error at this time, skipping.','channels': []}".

Section Fetch.

(** [urllib.request.urlopen(url).read()]: the answer to the n-th request of
    the run, either the body or the exception raised. *)
Variable urlopen : nat -> string -> result string.

(** [time.sleep(delay)] refuses a negative delay. *)
Definition sleep (delay : Z) (w : world) : result unit * world :=
  if delay <? 0 then (Raise ValueError, w)
  else (Ok tt, World (files w) (requests w) (slept w ++ [delay])).

Definition write_file (name content : string) (w : world) : world :=
  set_files (<[name := content]> (files w)) w.

Definition get_cached (cache_key : string) (delay : Z) (url : string)
    (w : world) : result string * world :=
  match files w !! cache_key with
  | Some content => (Ok content, w)
  | None =>
      let w1 := World (files w) (requests w ++ [url]) (slept w) in
      let fetched :=
        match urlopen (length (requests w)) url with
        | Ok body => Ok body
        | Raise (HTTPError code) =>
            if code =? 400 then Ok placeholder else Raise (HTTPError code)
        | Raise e => Raise e
        end in
      match fetched with
      | Raise e => (Raise e, w1)
      | Ok result =>
          let w2 := write_file cache_key result w1 in
          match sleep delay w2 with
          | (Ok _, w3) => (Ok result, w3)
          | (Raise e, w3) => (Raise e, w3)
          end
      end
  end.

End Fetch.

(** [cache_dir.glob('*')]: the names in the directory, in the order of the
    directory listing. *)
Definition glob (fs : gmap string string) : list string := (map_to_list fs).*1.

(** The body of the loop of [remove_stale_cache] for one name: a name that
    reads as an integer at or after [zap_time] is skipped; any other name,
    also one that does not read as an integer, reaches [unlink]. *)
Definition unlinked (zap_time : Z) (name : string) : bool :=
  match Py.int name with
  | Some t => negb (zap_time <=? t)
  | None => true
  end.

Definition remove_stale_cache (zap_time : Z) (fs : gmap string string)
  : gmap string string :=
  fold_left (fun acc name => if unlinked zap_time name then delete name acc else acc)
            (glob fs) fs.

(** ** Decoding the feed: [json.loads] *)

Module Json.

Inductive json :=
| JNull
| JBool (b : bool)
| JNum (lexeme : string)
| JStr (s : string)
| JArr (items : list json)
| JObj (members : list (string * json)).

Definition ch_is (c d : ascii) : bool := Ascii.eqb c d.

Definition dquote : ascii := "034"%char.

Fixpoint skip_ws (s : string) : string :=
  match s with
  | String c s' =>
      if ch_is c " " || ch_is c "009" || ch_is c "010" || ch_is c "013" then skip_ws s' else s
  | EmptyString => EmptyString
  end.

Definition hex_value (c : ascii) : option Z :=
  let n := Z.of_nat (nat_of_ascii c) in
  if (48 <=? n) && (n <=? 57) then Some (n - 48)
  else if (65 <=? n) && (n <=? 70) then Some (n - 55)
  else if (97 <=? n) && (n <=? 102) then Some (n - 87)
  else None.

Definition byte (n : Z) : ascii := ascii_of_nat (Z.to_nat n).

(** UTF-8 bytes of a code point of the basic plane. *)
Definition utf8 (cp : Z) : string :=
  if cp <? 128 then String (byte cp) EmptyString
  else if cp <? 2048 then
    String (byte (192 + cp / 64)) (String (byte (128 + cp mod 64)) EmptyString)
  else
    String (byte (224 + cp / 4096))
      (String (byte (128 + (cp / 64) mod 64))
         (String (byte (128 + cp mod 64)) EmptyString)).

(** The characters of a string literal after its opening quote, up to the
    closing quote. Control characters and unknown escapes are refused. A
    surrogate pair written as two [\u] escapes is kept as two code points. *)
Fixpoint string_body (s : string) : option (string * string) :=
  match s with
  | EmptyString => None
  | String c r =>
      if ch_is c dquote then Some (EmptyString, r)
      else if ch_is c "\" then
        match r with
        | String e r1 =>
            let plain (x : ascii) :=
              match string_body r1 with
              | Some (t, rest) => Some (String x t, rest)
              | None => None
              end in
            if ch_is e dquote then plain dquote
            else if ch_is e "\" then plain "\"%char
            else if ch_is e "/" then plain "/"%char
            else if ch_is e "b" then plain "008"%char
            else if ch_is e "f" then plain "012"%char
            else if ch_is e "n" then plain "010"%char
            else if ch_is e "r" then plain "013"%char
            else if ch_is e "t" then plain "009"%char
            else if ch_is e "u" then
              match r1 with
              | String h1 (String h2 (String h3 (String h4 r2))) =>
                  match hex_value h1, hex_value h2, hex_value h3, hex_value h4 with
                  | Some a, Some b, Some c', Some d =>
                      match string_body r2 with
                      | Some (t, rest) =>
                          Some (utf8 (4096 * a + 256 * b + 16 * c' + d) +:+ t, rest)
                      | None => None
                      end
                  | _, _, _, _ => None
                  end
              | _ => None
              end
            else None
        | EmptyString => None
        end
      else if (Z.of_nat (nat_of_ascii c) <? 32) then None
      else match string_body r with
           | Some (t, rest) => Some (String c t, rest)
           | None => None
           end
  end.

(** The longest prefix of decimal digits. *)
Fixpoint digits (s : string) : string * string :=
  match s with
  | String c r =>
      match digit_of c with
      | Some _ => let '(ds, rest) := digits r in (String c ds, rest)
      | None => (EmptyString, s)
      end
  | EmptyString => (EmptyString, EmptyString)
  end.

(** A number, as the scanner of the [json] module reads it: an optional
    minus, [0] or a digit sequence without leading zero, then an optional
    fraction and an optional exponent. The lexeme is kept unchanged. *)
Definition number (s : string) : option (string * string) :=
  let '(sign, s1) :=
    match s with
    | String "-" r => ("-", r)
    | _ => (EmptyString, s)
    end in
  let int_part :=
    match s1 with
    | String "0" r => Some ("0", r)
    | _ => match digits s1 with
           | (EmptyString, _) => None
           | (ds, r) => Some (ds, r)
           end
    end in
  match int_part with
  | None => None
  | Some (ip, s2) =>
      let '(frac, s3) :=
        match s2 with
        | String "." r =>
            match digits r with
            | (EmptyString, _) => (EmptyString, s2)
            | (ds, r') => (String "." ds, r')
            end
        | _ => (EmptyString, s2)
        end in
      let '(ex, s4) :=
        match s3 with
        | String e r =>
            if ch_is e "e" || ch_is e "E" then
              let '(sg, r1) :=
                match r with
                | String "-" r' => ("-", r')
                | String "+" r' => ("+", r')
                | _ => (EmptyString, r)
                end in
              match digits r1 with
              | (EmptyString, _) => (EmptyString, s3)
              | (ds, r') => (String e (sg +:+ ds), r')
              end
            else (EmptyString, s3)
        | EmptyString => (EmptyString, s3)
        end in
      Some (sign +:+ ip +:+ frac +:+ ex, s4)
  end.

Definition literal (word : string) (v : json) (s : string) : option (json * string) :=
  if String.prefix word s
  then Some (v, drop_chars (String.length word) s)
  else None.

(** One value at the head of [s]; arrays and objects read their items with
    the two companions. The fuel bounds the nesting and the item count. *)
Fixpoint value (fuel : nat) (s : string) : option (json * string) :=
  match fuel with
  | O => None
  | S n =>
      match s with
      | EmptyString => None
      | String c r =>
          if ch_is c dquote then
            match string_body r with
            | Some (t, rest) => Some (JStr t, rest)
            | None => None
            end
          else if ch_is c "{" then
            match skip_ws r with
            | String c' r' =>
                if ch_is c' "}" then Some (JObj [], r')
                else members n [] (String c' r')
            | EmptyString => None
            end
          else if ch_is c "[" then
            match skip_ws r with
            | String c' r' =>
                if ch_is c' "]" then Some (JArr [], r')
                else items n [] (String c' r')
            | EmptyString => None
            end
          else if ch_is c "n" then literal "null" JNull s
          else if ch_is c "t" then literal "true" (JBool true) s
          else if ch_is c "f" then literal "false" (JBool false) s
          else if ch_is c "N" then literal "NaN" (JNum "NaN") s
          else if ch_is c "I" then literal "Infinity" (JNum "Infinity") s
          else if String.prefix "-Infinity" s
          then literal "-Infinity" (JNum "-Infinity") s
          else match number s with
               | Some (lex, rest) => Some (JNum lex, rest)
               | None => None
               end
      end
  end
with items (fuel : nat) (acc : list json) (s : string) : option (json * string) :=
  match fuel with
  | O => None
  | S n =>
      match value n s with
      | Some (v, rest) =>
          match skip_ws rest with
          | String c r =>
              if ch_is c "]" then Some (JArr (rev (v :: acc)), r)
              else if ch_is c "," then items n (v :: acc) (skip_ws r)
              else None
          | EmptyString => None
          end
      | None => None
      end
  end
with members (fuel : nat) (acc : list (string * json)) (s : string)
  : option (json * string) :=
  match fuel with
  | O => None
  | S n =>
      match s with
      | String q r =>
          if ch_is q dquote then
            match string_body r with
            | Some (key, rest) =>
                match skip_ws rest with
                | String colon r1 =>
                    if ch_is colon ":" then
                      match value n (skip_ws r1) with
                      | Some (v, rest') =>
                          match skip_ws rest' with
                          | String c r2 =>
                              if ch_is c "}" then Some (JObj (rev ((key, v) :: acc)), r2)
                              else if ch_is c "," then members n ((key, v) :: acc) (skip_ws r2)
                              else None
                          | EmptyString => None
                          end
                      | None => None
                      end
                    else None
                | EmptyString => None
                end
            | None => None
            end
          else None
      | EmptyString => None
      end
  end.

(** [json.loads(b)] on UTF-8 bytes without byte-order mark: one value,
    white space around it, nothing else. *)
Definition loads (b : string) : result json :=
  match value (2 * String.length b + 2) (skip_ws b) with
  | Some (v, rest) =>
      match skip_ws rest with
      | EmptyString => Ok v
      | _ => Raise JSONDecodeError
      end
  | None => Raise JSONDecodeError
  end.

(** [o[key]] on a decoded object; of two members with one key the later
    one wins, as in the [dict] that [json.loads] builds. *)
Fixpoint lookup_last (key : string) (ms : list (string * json)) : option json :=
  match ms with
  | [] => None
  | (k, v) :: ms' =>
      match lookup_last key ms' with
      | Some v' => Some v'
      | None => if String.eqb k key then Some v else None
      end
  end.

Definition get (key : string) (o : json) : result json :=
  match o with
  | JObj ms =>
      match lookup_last key ms with
      | Some v => Ok v
      | None => Raise (KeyError key)
      end
  | _ => Raise TypeError
  end.

End Json.

(** ** The feed, as the program reads it

    The upstream contract: a JSON object with a [channels] array; fields the
    program formats or tests are [str] or [null].  A body of another shape
    is outside the model and is refused when it is decoded.

    The decoding below is eager and typed: it reads every field of every
    channel, event and program before the transform starts.  The program
    reads them one by one as it goes, the fields of the detail block only
    for the event it runs on.  On a body of the contract the two agree.  On
    a body that lacks a field, or has one of another type, they need not:
    the program may never read the field, or may fail later and with
    another exception.  What is stated about a run therefore either assumes
    that the body decodes, or does not depend on how the decoding ends. *)

Module Feed.

Import Json.

Record prog := Prog {
  title : option string;
  episodeTitle : option string;
  shortDesc : option string;
  releaseYear : option string;
  season : option string;
  episode : option string
}.

Record event := Event {
  startTime : string;
  endTime : string;
  duration : string;
  filter_tags : list string;      (* event['filter'] *)
  ev_thumbnail : option string;   (* event['thumbnail'] *)
  rating : option string;
  flag : list string;
  program : prog
}.

Record channel := Channel {
  channelNo : string;
  channelId : string;
  callSign : string;
  ch_thumbnail : option string;   (* c['thumbnail'] *)
  events : list event
}.

Definition as_str (j : json) : result string :=
  match j with JStr s => Ok s | _ => Raise TypeError end.

Definition as_opt_str (j : json) : result (option string) :=
  match j with
  | JNull => Ok None
  | JStr s => Ok (Some s)
  | _ => Raise TypeError
  end.

Definition as_list (j : json) : result (list json) :=
  match j with JArr l => Ok l | _ => Raise TypeError end.

Fixpoint each {A B} (f : A -> result B) (l : list A) : result (list B) :=
  match l with
  | [] => Ok []
  | a :: l' => b <- f a ;; bs <- each f l' ;; Ok (b :: bs)
  end.

Definition field {A} (key : string) (conv : json -> result A) (o : json) : result A :=
  v <- get key o ;; conv v.

Definition str_list (j : json) : result (list string) :=
  l <- as_list j ;; each as_str l.

Definition prog_of (j : json) : result prog :=
  t <- field "title" as_opt_str j ;;
  et <- field "episodeTitle" as_opt_str j ;;
  sd <- field "shortDesc" as_opt_str j ;;
  ry <- field "releaseYear" as_opt_str j ;;
  se <- field "season" as_opt_str j ;;
  ep <- field "episode" as_opt_str j ;;
  Ok (Prog t et sd ry se ep).

Definition event_of (j : json) : result event :=
  p <- field "program" prog_of j ;;
  st <- field "startTime" as_str j ;;
  en <- field "endTime" as_str j ;;
  du <- field "duration" as_str j ;;
  fi <- field "filter" str_list j ;;
  th <- field "thumbnail" as_opt_str j ;;
  ra <- field "rating" as_opt_str j ;;
  fl <- field "flag" str_list j ;;
  Ok (Event st en du fi th ra fl p).

Definition channel_of (j : json) : result channel :=
  no <- field "channelNo" as_str j ;;
  id <- field "channelId" as_str j ;;
  cs <- field "callSign" as_str j ;;
  th <- field "thumbnail" as_opt_str j ;;
  evs <- field "events" (fun v => l <- as_list v ;; each event_of l) j ;;
  Ok (Channel no id cs th evs).

(** [d['channels']] of a decoded body. *)
Definition channels_of (d : json) : result (list channel) :=
  field "channels" (fun v => l <- as_list v ;; each channel_of l) d.

End Feed.

(** ** The XML tree: [xml.etree.ElementTree] *)

Inductive element :=
| Element (tag : string) (attrib : list (string * string))
          (text : option string) (children : list element).

Definition tag_of (e : element) : string :=
  match e with Element t _ _ _ => t end.
Definition attrib_of (e : element) : list (string * string) :=
  match e with Element _ a _ _ => a end.
Definition text_of (e : element) : option string :=
  match e with Element _ _ x _ => x end.
Definition children_of (e : element) : list element :=
  match e with Element _ _ _ c => c end.

(** The element that [sub_el(parent, name, text, **kwargs)] builds; a text
    that is [None] or empty is not set. Appending it to the parent is the
    caller's part. *)
Definition sub_el (name : string) (text : option string)
    (kwargs : list (string * string)) : element :=
  Element name kwargs (if truthy_opt text then text else None) [].

(** Appending sub-elements to an element. *)
Definition extend (els : list element) (parent : element) : element :=
  match parent with
  | Element t a x c => Element t a x (c ++ els)
  end.

Definition has_tag (name : string) (e : element) : bool :=
  String.eqb (tag_of e) name.

(** The sub-elements of [e] named [name], in document order. *)
Definition findall (name : string) (e : element) : list element :=
  List.filter (has_tag name) (children_of e).

(** ** The program: [main] and the blocks it is made of *)

Record args := Args {
  zap_aid : string;
  zap_country : string;
  delay : Z;
  zap_device : string;
  zap_headendId : string;
  zap_isOverride : bool;
  zap_languagecode : string;
  zap_pref : string;
  zap_timespan : Z;
  zap_timezone : string;
  zap_userId : string;
  zap_postalCode : string;
  output_file : string
}.

(** *** The time-window planner (lines 151-168) *)

Definition zap_time_window (a : args) : Z := zap_timespan a * 3600.

(** [int(zap_time - (zap_time % zap_time_window))]; Python's [%] and
    [Z.modulo] both take the sign of the divisor. [zap_time] is a [float]
    with the whole number [now] of seconds as its value, so the program
    computes this in double precision; the integer expression below is what
    it gets as long as [float_exact] holds. *)
Definition first_zap_time (a : args) (now : Z) : Z :=
  now - now mod zap_time_window a.

(** Where the double-precision arithmetic of line 155 is exact: the time and
    the window are below 2^52 in size, so that the window, the remainder and
    the difference are whole numbers a [float] holds without rounding.
    Beyond it the program rounds the window, or fails with [OverflowError]
    when the window is outside the range of [float]. Every span from 1 to
    168 is within it. *)
Definition float_exact (a : args) (now : Z) : Prop :=
  0 <= now < 2 ^ 52 /\ Z.abs (zap_time_window a) < 2 ^ 52.

(** [int(7 * 24 / args.zap_timespan)]: the quotient, cut towards zero. *)
Definition bucket_count (a : args) : Z := Z.quot (7 * 24) (zap_timespan a).

Definition i_time_of (a : args) (now i : Z) : Z :=
  first_zap_time a now + i * zap_time_window a.

(** The values [i_time] takes in the loop of line 167, in order. *)
Definition plan (a : args) (now : Z) : list Z :=
  i_time_of a now <$> range (bucket_count a).

(** The [parameters] dict of one turn of the loop, keys and values as the
    [str] that [urlencode] makes of them. *)
Definition parameters (a : args) (i_time : Z) : list (string * string) :=
  [ ("aid", zap_aid a);
    ("country", zap_country a);
    ("device", zap_device a);
    ("headendId", zap_headendId a);
    ("isOverride", "true");
    ("languagecode", zap_languagecode a);
    ("pref", "m,p");
    ("timespan", str (zap_timespan a));
    ("timezone", zap_timezone a);
    ("userId", zap_userId a);
    ("postalCode", zap_postalCode a);
    ("lineupId", zap_country a +:+ "-" +:+ zap_device a +:+ "-DEFAULT");
    ("time", str i_time);
    ("Activity_ID", "1");
    ("FromPage", "TV%20Guide") ].

(** Lines 190-191. *)
Definition grid_url (params : list (string * string)) : string :=
  "https://tvlistings.zap2it.com/api/grid?" +:+ urlencode params.

(** The loop of lines 167-188. Its body only assigns [i_time] and
    [parameters]; what is left after the loop is what the last turn
    assigned, or nothing when the range is empty. *)
Definition planning_loop (a : args) (now : Z)
  : option (Z * list (string * string)) :=
  fold_left (fun _ i => let i_time := i_time_of a now i in
                        Some (i_time, parameters a i_time))
            (range (bucket_count a)) None.

(** *** The listings transform (lines 196-256) *)

Section Transform.

Import Feed.

(** [datetime.datetime]: reading an ISO 8601 text, which may fail, and
    [strftime('%Y%m%d%H%M%S %z')]. *)
Variable datetime : Type.
Variable fromisoformat : string -> option datetime.
Variable strftime : datetime -> string.

Definition tm_parse (tm : string) : result datetime :=
  match fromisoformat (replace "Z" "+00:00" tm) with
  | Some t => Ok t
  | None => Raise ValueError
  end.

(** ['I%s.%s.zap2it.com' % (c['channelNo'], c['channelId'])] *)
Definition channel_id (c : channel) : string :=
  "I" +:+ channelNo c +:+ "." +:+ channelId c +:+ ".zap2it.com".

(** [str(x)] of a value that is a [str] or [None]. *)
Definition str_of_opt (o : option string) : string :=
  match o with Some s => s | None => "None" end.

(** First item of a list of strings that is known not to be empty. *)
Definition first (l : list string) : string :=
  match l with s :: _ => s | [] => EmptyString end.

(** The [channel] element of lines 199-206, with its sub-elements. *)
Definition channel_out (c_in : channel) : element :=
  let channel_thumb := first (split "?" (replace "//" "" (str_of_opt (ch_thumbnail c_in)))) in
  Element "channel" [("id", channel_id c_in)] None
    [ sub_el "display-name" (Some (channelNo c_in +:+ " " +:+ callSign c_in)) [];
      sub_el "display-name" (Some (channelNo c_in)) [];
      sub_el "display-name" (Some (callSign c_in)) [];
      sub_el "icon" None [("src", channel_thumb)] ].

(** The local variables the event loop leaves behind: [event], [prog_in]
    and [prog_out]. [prog_out] is a reference to a [programme] element of
    the document, kept as its position among the children of the root. *)
Record locals := Locals {
  l_event : event;
  l_prog_in : prog;
  l_prog_out : nat
}.

(** The state of the transform: the children of the root element [out], and
    the local variables, unbound until an event has been seen. *)
Definition tstate : Type := list element * option locals.

(** The [programme] element of lines 214-217. *)
Definition programme_out (c_id : string) (tm_start tm_end : datetime) : element :=
  sub_el "programme" None
    [("start", strftime tm_start); ("stop", strftime tm_end); ("channel", c_id)].

(** Body of the loop over [c['events']] (lines 211-217). *)
Definition event_body (c_id : string) (st : tstate) (ev : event) : result tstate :=
  let '(out, _) := st in
  let prog_in := program ev in
  tm_start <- tm_parse (startTime ev) ;;
  tm_end <- tm_parse (endTime ev) ;;
  Ok (out ++ [programme_out c_id tm_start tm_end],
      Some (Locals ev prog_in (length out))).

(** The [programme] element the event loop makes for one event. *)
Definition programme_of (c_id : string) (ev : event) : result element :=
  tm_start <- tm_parse (startTime ev) ;;
  tm_end <- tm_parse (endTime ev) ;;
  Ok (programme_out c_id tm_start tm_end).

Definition lang_en : list (string * string) := [("lang", "en")].

Definition title_els (prog_in : prog) : list element :=
  if truthy_opt (title prog_in)
  then [sub_el "title" (title prog_in) lang_en]
  else [].

Definition sub_title_els (ev : event) (prog_in : prog) : list element :=
  if contains "filter-movie" (filter_tags ev) && truthy_opt (releaseYear prog_in)
  then [sub_el "sub-title" (Some ("Movie: " +:+ str_of_opt (releaseYear prog_in))) lang_en]
  else if truthy_opt (episodeTitle prog_in)
  then [sub_el "sub-title" (episodeTitle prog_in) lang_en]
  else [].

(** Lines 227-228: the assignment changes the program record itself. *)
Definition default_desc (prog_in : prog) : prog :=
  match shortDesc prog_in with
  | None => Prog (title prog_in) (episodeTitle prog_in) (Some "Unavailable")
                 (releaseYear prog_in) (season prog_in) (episode prog_in)
  | Some _ => prog_in
  end.

Definition desc_el (prog_in : prog) : element :=
  sub_el "desc" (shortDesc (default_desc prog_in)) lang_en.

Definition length_el (ev : event) : element :=
  sub_el "length" (Some (duration ev)) [("units", "minutes")].

Definition filter_els (ev : event) : list element :=
  flat_map (fun f => [ sub_el "category" (Some (replace "filter-" "" f)) lang_en;
                       sub_el "genre" (Some (drop_chars 7 f)) lang_en ])
           (filter_tags ev).

Definition icon_els (ev : event) : list element :=
  match ev_thumbnail ev with
  | Some t => [sub_el "icon" None
                 [("src", "https://zap2it.tmsimg.com/assets/" +:+ t +:+ ".jpg")]]
  | None => []
  end.

Definition rating_els (ev : event) : list element :=
  if truthy_opt (rating ev)
  then [Element "rating" [] None [sub_el "value" (rating ev) []]]
  else [].

(** Lines 245-253; [int] may raise [ValueError]. *)
Definition episode_num_els (prog_in : prog) : result (list element) :=
  if truthy_opt (season prog_in) && truthy_opt (episode prog_in) then
    match Py.int (str_of_opt (season prog_in)), Py.int (str_of_opt (episode prog_in)) with
    | Some s_, Some e_ =>
        let sxxexx := "S" +:+ fmt_02d s_ +:+ "E" +:+ fmt_02d e_ in
        Ok [ sub_el "episode-num" (Some sxxexx) [("system", "common")];
             sub_el "episode-num" (Some (str (s_ - 1) +:+ "." +:+ str (e_ - 1) +:+ "."))
                    [("system", "xmltv_ns")];
             sub_el "episode-num" (Some sxxexx)
                    [("system", "SxxExx" +:+ String Json.dquote ">S")] ]
    | _, _ => Raise ValueError
    end
  else Ok [].

Definition new_els (ev : event) : list element :=
  if contains "New" (flag ev) && negb (contains "live" (flag ev))
  then [sub_el "new" None []]
  else [].

(** Lines 219-256: the detail elements made from [event] and [prog_in], in
    the order they are appended to [prog_out]. *)
Definition details (ev : event) (prog_in : prog) : result (list element) :=
  ep <- episode_num_els prog_in ;;
  Ok (title_els prog_in ++ sub_title_els ev prog_in
      ++ [desc_el prog_in; length_el ev]
      ++ filter_els ev ++ icon_els ev ++ rating_els ev
      ++ ep ++ new_els ev).

(** Body of the loop over [d['channels']] (lines 209-256): the event loop,
    then once, after it, the detail block on whatever [event], [prog_in]
    and [prog_out] are bound to. *)
Definition channel_body (st : tstate) (c : channel) : result tstate :=
  st1 <- for_each (event_body (channel_id c)) (events c) st ;;
  match st1 with
  | (_, None) => Raise (NameError "prog_in")
  | (out, Some (Locals ev prog_in prog_out)) =>
      els <- details ev prog_in ;;
      Ok (alter (extend els) prog_out out,
          Some (Locals ev (default_desc prog_in) prog_out))
  end.

(** Lines 196-256 for one decoded body [d]: the channel table when
    [done_channels] is not yet set, then the programmes. The result carries
    the new value of [done_channels]. *)
Definition aggregate (channels : list channel) (done_channels : bool) (st : tstate)
  : result (bool * tstate) :=
  let '(out, vars) := st in
  let out1 := if done_channels then out else out ++ (channel_out <$> channels) in
  st' <- for_each channel_body channels (out1, vars) ;;
  Ok (true, st').

(** *** [main] *)

Variable urlopen : nat -> string -> result string.

Definition tv_attrib : list (string * string) :=
  [ ("source-info-url", "http://tvlistings.zap2it.com/");
    ("source-info-name", "zap2it.com");
    ("generator-info-name", "zap2xml.py");
    ("generator-info-url", "github.com/deathbybandaid/zap2xml-py") ].

(** A run of [main] at wall-clock time [now] (seconds since the epoch) in
    the world [w]. The result is the document written to the output file,
    or the exception that ends the run, and the world the run leaves. *)
Definition main (a : args) (now : Z) (w : world) : result element * world :=
  if zap_time_window a =? 0 then (Raise ZeroDivisionError, w) else
  let zap_time := first_zap_time a now in
  let w1 := set_files (remove_stale_cache zap_time (files w)) w in
  match planning_loop a now with
  | None => (Raise (NameError "parameters"), w1)
  | Some (i_time, params) =>
      let url := grid_url params in
      let '(fetched, w2) := get_cached urlopen (str i_time) (delay a) url w1 in
      (result <- fetched ;;
       d <- Json.loads result ;;
       channels <- Feed.channels_of d ;;
       st <- aggregate channels false ([], None) ;;
       Ok (Element "tv" tv_attrib None (fst (snd st))),
       w2)
  end.

End Transform.

Arguments main {datetime} fromisoformat strftime urlopen a now w.
Arguments aggregate {datetime} fromisoformat strftime channels done_channels st.
Arguments channel_body {datetime} fromisoformat strftime st c.
Arguments event_body {datetime} fromisoformat strftime c_id st ev.
Arguments tm_parse {datetime} fromisoformat tm.
Arguments programme_of {datetime} fromisoformat strftime c_id ev.
Arguments details ev prog_in : clear implicits.

(** A [programme] element as the event loop leaves it: the three
    attributes, no text and no sub-element. *)
Definition bare_programme (c_id : string) (p : element) : Prop :=
  exists start stop,
    p = Element "programme" [("start", start); ("stop", stop); ("channel", c_id)] None [].

(** The [channel] elements among the children of the root. *)
Definition channels_in (out : list element) : list element :=
  List.filter (has_tag "channel") out.

(** [prog_out], when bound, refers to a [programme] element of the
    document. *)
Definition prog_out_bound (st : list element * option locals) : Prop :=
  forall l, snd st = Some l ->
    exists p, fst st !! l_prog_out l = Some p /\ tag_of p = "programme".

(** What every step of the transform keeps: the [channel] elements of the
    document, and [prog_out] referring to a [programme]. *)
Definition keeps (table : list element) (st : list element * option locals) : Prop :=
  channels_in (fst st) = table /\ prog_out_bound st.
Arguments programme_out {datetime} strftime c_id tm_start tm_end.

(** ** The claims of the specification, in its own words *)

Module Spec.

Import Feed.

(** Specification 4.4, channel table: "populated exactly once, from the
    first bucket whose channels array is non-empty". [buckets] are the
    decoded bodies of the planned buckets, in chronological order. *)
Definition channel_table (buckets : list (list channel)) : list element :=
  match List.filter (fun cs => negb (Nat.eqb (length cs) 0)) buckets with
  | cs :: _ => channel_out <$> cs
  | [] => []
  end.

(** Specification 4.2, evict_stale: an entry goes when its key reads as an
    integer below the first bucket; a key that does not read as an integer
    stays. *)
Definition retained (current_first_bucket : Z) (key : string) : bool :=
  match Py.int key with
  | Some t => current_first_bucket <=? t
  | None => true
  end.

Definition evict_stale (current_first_bucket : Z) (fs : gmap string string)
  : gmap string string :=
  filter (fun kv => retained current_first_bucket kv.1 = true) fs.

End Spec.

(** ** Sample runs *)

Module Demo.

Import Feed.

(** A stand-in for [datetime] on texts of the one form
    [YYYY-MM-DDTHH:MM+HH:MM]; the value kept is the formatted text. *)
Definition all_digits (s : string) : bool :=
  forallb (fun c => match digit_of c with Some _ => true | None => false end)
          (list_ascii_of_string s).

Definition fromisoformat (s : string) : option string :=
  let y := substring 0 4 s in
  let mo := substring 5 2 s in
  let d := substring 8 2 s in
  let h := substring 11 2 s in
  let mi := substring 14 2 s in
  let sign := substring 16 1 s in
  let zh := substring 17 2 s in
  let zm := substring 20 2 s in
  if (String.length s =? 22)%nat
     && all_digits (y +:+ mo +:+ d +:+ h +:+ mi +:+ zh +:+ zm)
     && String.eqb (substring 4 1 s) "-" && String.eqb (substring 7 1 s) "-"
     && String.eqb (substring 13 1 s) ":" && String.eqb (substring 19 1 s) ":"
     && (String.eqb sign "+" || String.eqb sign "-")
  then Some (y +:+ mo +:+ d +:+ h +:+ mi +:+ "00 " +:+ sign +:+ zh +:+ zm)
  else None.

Definition strftime (t : string) : string := t.

Definition sample_args (timespan : Z) : args :=
  Args "gapzap" "USA" 5 "-" "lineupId" true "en" "" timespan "" "-" "90210" "xmltv.xml".

Definition now : Z := 1593561700.

Definition empty_world : world := World ∅ [] [].

(** A network that knows the bodies of some buckets and answers 404 for
    any other URL. *)
Fixpoint serve (a : args) (bodies : list (Z * string)) (n : nat) (url : string)
  : result string :=
  match bodies with
  | [] => Raise (HTTPError 404)
  | (t, body) :: bodies' =>
      if String.eqb url (grid_url (parameters a t)) then Ok body
      else serve a bodies' n url
  end.

Definition event_json (start stop title desc season episode flags : string) : string :=
  "{'startTime':'" +:+ start +:+ "','endTime':'" +:+ stop
  +:+ "','duration':'60','filter':['filter-news'],'thumbnail':null,'rating':null,"
  +:+ "'flag':[" +:+ flags +:+ "],'program':{'title':'" +:+ title
  +:+ "','episodeTitle':null,'shortDesc':" +:+ desc +:+ ",'releaseYear':null,"
  +:+ "'season':" +:+ season +:+ ",'episode':" +:+ episode +:+ "}}".

Definition channel_json (no id sign events : string) : string :=
  "{'channelNo':'" +:+ no +:+ "','channelId':'" +:+ id +:+ "','callSign':'" +:+ sign
  +:+ "','thumbnail':'//zap2it.tmsimg.com/h3/" +:+ sign +:+ ".png?w=55','events':["
  +:+ events +:+ "]}".

Definition body_json (channels : string) : string :=
  quoted ("{'channels':[" +:+ channels +:+ "]}").

(** Two consecutive buckets of 84 hours: bucket A and bucket B both list
    the channels 2.1 and 4.1, with one event each. *)
Definition body_A : string :=
  body_json
    (channel_json "2.1" "10161" "KAAA"
       (event_json "2020-06-28T12:00Z" "2020-06-28T13:00Z" "News" "'Local news.'" "null" "null" "")
     +:+ "," +:+
     channel_json "4.1" "10162" "KBBB"
       (event_json "2020-06-28T12:00Z" "2020-06-28T13:00Z" "Quiz" "'A quiz.'" "null" "null" "")).

Definition body_B : string :=
  body_json
    (channel_json "2.1" "10161" "KAAA"
       (event_json "2020-07-02T00:00Z" "2020-07-02T01:00Z" "Late News" "'More news.'" "null" "null" "")
     +:+ "," +:+
     channel_json "4.1" "10162" "KBBB"
       (event_json "2020-07-02T00:00Z" "2020-07-02T01:00Z" "Film" "'A film.'" "null" "null" "")).

(** Two buckets with different line-ups: A lists 2.1 only, B lists 7.1
    only. *)
Definition body_X : string :=
  body_json
    (channel_json "2.1" "10161" "KAAA"
       (event_json "2020-06-28T12:00Z" "2020-06-28T13:00Z" "News" "'Local news.'" "null" "null" "")).

Definition body_Y : string :=
  body_json
    (channel_json "7.1" "10170" "KCCC"
       (event_json "2020-07-02T00:00Z" "2020-07-02T01:00Z" "Film" "'A film.'" "null" "null" "")).

(** One bucket of 168 hours, one channel with two events: the first has a
    short description, season 1, episode 5 and the flag New; the second has
    none of them. *)
Definition body_two_events : string :=
  body_json
    (channel_json "2.1" "10161" "KAAA"
       (event_json "2020-06-28T12:00Z" "2020-06-28T13:00Z" "Series" "'An episode.'" "'1'" "'5'" "'New'"
        +:+ "," +:+
        event_json "2020-06-28T13:00Z" "2020-06-28T14:00Z" "Weather" "null" "null" "null" "")).

(** [body_two_events], decoded. *)
Definition ev_series : event :=
  Event "2020-06-28T12:00Z" "2020-06-28T13:00Z" "60" ["filter-news"] None None ["New"]
        (Prog (Some "Series") None (Some "An episode.") None (Some "1") (Some "5")).

Definition ev_weather : event :=
  Event "2020-06-28T13:00Z" "2020-06-28T14:00Z" "60" ["filter-news"] None None []
        (Prog (Some "Weather") None None None None None).

Definition ch_two_events : channel :=
  Channel "2.1" "10161" "KAAA" (Some "//zap2it.tmsimg.com/h3/KAAA.png?w=55")
          [ev_series; ev_weather].

(** The channel list a body decodes to (empty when it does not decode). *)
Definition decoded (body : string) : list channel :=
  match (d <- Json.loads body ;; Feed.channels_of d) with
  | Ok cs => cs
  | Raise _ => []
  end.

(** The sub-elements named [name] of the document of a run. *)
Definition in_document (name : string) (r : result element * world) : list element :=
  match fst r with
  | Ok doc => findall name doc
  | Raise _ => []
  end.

(** The transform of one decoded body on an empty document, as [main]
    starts it. *)
Definition aggregated (body : string) : list element * option locals :=
  match aggregate fromisoformat strftime (decoded body) false ([], None) with
  | Ok (_, st) => st
  | Raise _ => ([], None)
  end.

Definition run (timespan : Z) (bodies : list (Z * string)) (w : world)
  : result element * world :=
  main fromisoformat strftime (serve (sample_args timespan) bodies)
       (sample_args timespan) now w.

End Demo.

(** ** Notions used to state further properties *)

(** A predicate on every character of a text. *)
Fixpoint all_chars (p : ascii -> bool) (s : string) : bool :=
  match s with
  | EmptyString => true
  | String c s' => p c && all_chars p s'
  end.

Definition not_space (c : ascii) : bool := negb (isspace c).

(** The characters a quoted URL component is made of. *)
Definition url_char (c : ascii) : bool :=
  always_safe c || Ascii.eqb c "+" || Ascii.eqb c "%".

(** The characters of a URL the program opens. *)
Definition grid_url_char (c : ascii) : bool :=
  url_char c || Ascii.eqb c ":" || Ascii.eqb c "/" || Ascii.eqb c "?"
  || Ascii.eqb c "=" || Ascii.eqb c "&".

(** How many of [els] are named [name]. *)
Definition count_tag (name : string) (els : list element) : nat :=
  length (List.filter (has_tag name) els).

(** Lines 194-256 of [main] on the bytes that [get_cached] returned: decode,
    transform on an empty document, wrap in the root element. *)
Definition document_of {datetime : Type} (fromisoformat : string -> option datetime)
    (strftime : datetime -> string) (body : string) : result element :=
  d <- Json.loads body ;;
  channels <- Feed.channels_of d ;;
  st <- aggregate fromisoformat strftime channels false ([], None) ;;
  Ok (Element "tv" tv_attrib None (fst (snd st))).

(** * Properties *)

(** ** The Python built-ins on samples *)

Example str_samples :
  (str 0, str 7, str 10, str 1593561600, str (-42)) =
  ("0", "7", "10", "1593561600", "-42").
Proof. reflexivity. Qed.

Example int_samples :
  (Py.int "100", Py.int " 007 ", Py.int "-3", Py.int "1_000", Py.int "+5") =
  (Some 100, Some 7, Some (-3), Some 1000, Some 5)
  /\ (Py.int "", Py.int "notes.txt", Py.int "1__0", Py.int "_1", Py.int "1_", Py.int "-") =
     (None, None, None, None, None, None).
Proof. split; reflexivity. Qed.

Example fmt_samples :
  (fmt_02d 1, fmt_02d 5, fmt_02d 12, fmt_02d 123, fmt_02d (-1)) =
  ("01", "05", "12", "123", "-1").
Proof. reflexivity. Qed.

Example replace_samples :
  (replace "Z" "+00:00" "2020-07-01T00:30Z",
   replace "//" "" "//zap2it.tmsimg.com/h3/NowShowing.png?w=55",
   replace "filter-" "" "filter-sports",
   replace "aa" "b" "aaa") =
  ("2020-07-01T00:30+00:00", "zap2it.tmsimg.com/h3/NowShowing.png?w=55",
   "sports", "ba").
Proof. reflexivity. Qed.

Example split_samples :
  (split "?" "a.png?w=55", split "?" "a.png", split "?" "a?b?", split "?" "") =
  (["a.png"; "w=55"], ["a.png"], ["a"; "b"; ""], [""]).
Proof. reflexivity. Qed.

Example quote_plus_sample : quote_plus "TV%20Guide m,p" = "TV%2520Guide+m%2Cp".
Proof. reflexivity. Qed.

Lemma split_not_nil sep s : split sep s <> [].
Proof.
  destruct s as [|c s]; simpl; [discriminate|].
  destruct (Ascii.eqb c sep); [discriminate|].
  destruct (split sep s); discriminate.
Qed.

(** ** The time-window planner *)

Section Planner.

Variable a : args.
Variable now : Z.

Lemma range_lookup (n : Z) (i : nat) :
  range n !! i = if decide (i < Z.to_nat n)%nat then Some (Z.of_nat i) else None.
Proof.
  unfold range. rewrite list_lookup_fmap.
  case_decide as Hi.
  - by rewrite lookup_seq_lt.
  - rewrite lookup_seq_ge; [done | lia].
Qed.

Lemma range_length (n : Z) : length (range n) = Z.to_nat n.
Proof. unfold range. by rewrite length_fmap, length_seq. Qed.

Lemma plan_lookup (i : nat) :
  plan a now !! i =
  if decide (i < Z.to_nat (bucket_count a))%nat
  then Some (i_time_of a now (Z.of_nat i)) else None.
Proof.
  unfold plan. rewrite list_lookup_fmap, range_lookup.
  by case_decide.
Qed.

Lemma plan_length : length (plan a now) = Z.to_nat (bucket_count a).
Proof. unfold plan. by rewrite length_fmap, range_length. Qed.

Lemma bucket_count_pos :
  0 < zap_timespan a -> bucket_count a = 168 / zap_timespan a.
Proof.
  intros Hpos. unfold bucket_count.
  change (7 * 24) with 168. apply Z.quot_div_nonneg; lia.
Qed.

Lemma first_zap_time_aligned :
  zap_time_window a <> 0 -> (zap_time_window a | first_zap_time a now).
Proof.
  intros Hw. unfold first_zap_time.
  exists (now / zap_time_window a).
  pose proof (Z.div_mod now (zap_time_window a) Hw). lia.
Qed.

Lemma first_zap_time_le :
  0 < zap_time_window a ->
  first_zap_time a now <= now < first_zap_time a now + zap_time_window a.
Proof.
  intros Hw. unfold first_zap_time.
  pose proof (Z.mod_pos_bound now (zap_time_window a) Hw). lia.
Qed.

(** What the loop of [main] leaves in [i_time] and [parameters]: the values
    of the last planned bucket only. *)
Lemma planning_loop_last :
  planning_loop a now =
  (fun t => (t, parameters a t)) <$> last (plan a now).
Proof.
  unfold planning_loop, plan.
  generalize (range (bucket_count a)) as l.
  assert (Hgen : forall (l : list Z) (acc : option (Z * list (string * string))),
    fold_left (fun _ i => let i_time := i_time_of a now i in
                          Some (i_time, parameters a i_time)) l acc =
    match last (i_time_of a now <$> l) with
    | Some t => Some (t, parameters a t)
    | None => acc
    end).
  { induction l as [|i l IH]; intros acc; [done|].
    simpl fold_left. rewrite IH, fmap_cons, last_cons.
    by destruct (last (i_time_of a now <$> l)). }
  intros l. rewrite Hgen. by destruct (last _).
Qed.

(** C7. For a span of hours that divides 168, the planner yields 168/span
    bucket times; two consecutive ones are span*3600 seconds apart; the
    first is the reference time aligned down to a multiple of span*3600
    seconds, hence at or before the reference time. *)
Theorem plan_covers_week :
  0 < zap_timespan a ->
  (zap_timespan a | 168) ->
  Z.of_nat (length (plan a now)) = 168 / zap_timespan a
  /\ (forall (i : nat) (t u : Z),
        plan a now !! i = Some t -> plan a now !! S i = Some u ->
        u - t = zap_timespan a * 3600)
  /\ head (plan a now) = Some (now - now mod (zap_timespan a * 3600))
  /\ (zap_timespan a * 3600 | now - now mod (zap_timespan a * 3600))
  /\ now - now mod (zap_timespan a * 3600) <= now.
Proof.
  intros Hpos Hdiv.
  assert (Hle : zap_timespan a <= 168) by (apply Z.divide_pos_le; [lia | done]).
  assert (Hn : 1 <= 168 / zap_timespan a).
  { apply Z.div_le_lower_bound; lia. }
  assert (Hw : 0 < zap_time_window a) by (unfold zap_time_window; lia).
  repeat split.
  - rewrite plan_length, bucket_count_pos by done. lia.
  - intros i t u. rewrite !plan_lookup.
    repeat case_decide; try discriminate.
    intros [= <-] [= <-]. unfold i_time_of, zap_time_window. lia.
  - rewrite head_lookup, plan_lookup, bucket_count_pos by done.
    case_decide; [|lia].
    unfold i_time_of, first_zap_time, zap_time_window. f_equal. lia.
  - apply (first_zap_time_aligned). lia.
  - apply first_zap_time_le. done.
Qed.

End Planner.

Lemma plan_covers_week_witness :
  Z.of_nat (length (plan (Demo.sample_args 3) Demo.now)) = 56
  /\ head (plan (Demo.sample_args 3) Demo.now) = Some 1593561600.
Proof.
  destruct (plan_covers_week (Demo.sample_args 3) Demo.now) as (Hlen & _ & Hhead & _).
  - simpl. lia.
  - exists 56. reflexivity.
  - split; [exact Hlen | exact Hhead].
Defined.

(** ** The bucket cache *)

Section Cache.

Variable urlopen : nat -> string -> result string.

Lemma get_cached_hit key delay url w content :
  files w !! key = Some content ->
  get_cached urlopen key delay url w = (Ok content, w).
Proof. intros H. unfold get_cached. by rewrite H. Qed.

Lemma get_cached_miss key delay url w body :
  files w !! key = None ->
  0 <= delay ->
  urlopen (length (requests w)) url = Ok body ->
  get_cached urlopen key delay url w =
  (Ok body, World (<[key := body]> (files w)) (requests w ++ [url]) (slept w ++ [delay])).
Proof.
  intros Hmiss Hdelay Hnet. unfold get_cached, sleep, write_file, set_files.
  rewrite Hmiss, Hnet. simpl.
  destruct (delay <? 0) eqn:E; [lia | done].
Qed.

(** Whatever a call returns is in the cache afterwards. *)
Lemma get_cached_stored key delay url w content w' :
  get_cached urlopen key delay url w = (Ok content, w') ->
  files w' !! key = Some content.
Proof.
  unfold get_cached, sleep, write_file, set_files.
  destruct (files w !! key) as [c|] eqn:Hc.
  - intros [= <- <-]. done.
  - destruct (urlopen _ url) as [body|e]; [|destruct e as [| |code| | | |]];
      try discriminate.
    + simpl. destruct (delay <? 0); [discriminate|].
      intros [= <- <-]. simpl. apply lookup_insert_eq.
    + destruct (code =? 400); [|discriminate].
      simpl. destruct (delay <? 0); [discriminate|].
      intros [= <- <-]. simpl. apply lookup_insert_eq.
Qed.

(** C6. A key with a file in the cache directory is answered with the
    bytes of the file: no request, no delay, world unchanged. A key without
    one is fetched, the bytes are stored under the key, the delay is slept
    and the bytes are returned. Hence a second call for the key returns the
    bytes of the first and leaves the world, the request log included, as
    it is. *)
Theorem get_cached_read_through key delay url w :
  0 <= delay ->
  (forall content, files w !! key = Some content ->
     get_cached urlopen key delay url w = (Ok content, w))
  /\ (forall body, files w !! key = None ->
        urlopen (length (requests w)) url = Ok body ->
        get_cached urlopen key delay url w =
        (Ok body, World (<[key := body]> (files w))
                        (requests w ++ [url]) (slept w ++ [delay])))
  /\ (forall content w', get_cached urlopen key delay url w = (Ok content, w') ->
        forall delay' url',
          get_cached urlopen key delay' url' w' = (Ok content, w')).
Proof.
  intros Hdelay. split; [|split].
  - intros content H. by apply get_cached_hit.
  - intros body Hmiss Hnet. by apply get_cached_miss.
  - intros content w' H delay' url'.
    apply get_cached_hit. by eapply get_cached_stored.
Qed.

(** C5. On a miss, a request that fails with status 400 yields the fixed
    placeholder, which decodes to an empty channel list and is stored under
    the requested key before the delay is slept; a request that fails with
    another status raises that error, and nothing is stored. *)
Theorem get_cached_http_error key delay url w code :
  files w !! key = None ->
  0 <= delay ->
  urlopen (length (requests w)) url = Raise (HTTPError code) ->
  (code = 400 ->
     get_cached urlopen key delay url w =
     (Ok placeholder,
      World (<[key := placeholder]> (files w)) (requests w ++ [url]) (slept w ++ [delay]))
     /\ (d <- Json.loads placeholder ;; Feed.channels_of d) = Ok [])
  /\ (code <> 400 ->
        get_cached urlopen key delay url w =
        (Raise (HTTPError code), World (files w) (requests w ++ [url]) (slept w))).
Proof.
  intros Hmiss Hdelay Hnet. unfold get_cached, sleep, write_file, set_files.
  rewrite Hmiss, Hnet. split.
  - intros ->. simpl. split; [|by vm_compute].
    destruct (delay <? 0) eqn:E; [lia | done].
  - intros Hne. destruct (code =? 400) eqn:E; [lia | done].
Qed.

End Cache.

Lemma get_cached_read_through_witness :
  get_cached (Demo.serve (Demo.sample_args 84) [(1593648000, Demo.body_B)])
    "1593648000" 5 (grid_url (parameters (Demo.sample_args 84) 1593648000))
    Demo.empty_world
  = (Ok Demo.body_B,
     World (<["1593648000" := Demo.body_B]> ∅)
           [grid_url (parameters (Demo.sample_args 84) 1593648000)] [5]).
Proof.
  destruct (get_cached_read_through
              (Demo.serve (Demo.sample_args 84) [(1593648000, Demo.body_B)])
              "1593648000" 5 (grid_url (parameters (Demo.sample_args 84) 1593648000))
              Demo.empty_world) as (_ & Hmiss & _).
  - lia.
  - apply (Hmiss Demo.body_B); reflexivity.
Defined.

Lemma get_cached_http_error_witness :
  get_cached (fun _ _ => Raise (HTTPError 400)) "1593648000" 5 "u" Demo.empty_world
  = (Ok placeholder, World (<["1593648000" := placeholder]> ∅) ["u"] [5]).
Proof.
  destruct (get_cached_http_error (fun _ _ => Raise (HTTPError 400))
              "1593648000" 5 "u" Demo.empty_world 400) as [H400 _].
  - reflexivity.
  - lia.
  - reflexivity.
  - destruct (H400 eq_refl) as [H _]. exact H.
Defined.

(** A status other than 400 at the same place. *)
Example get_cached_503 :
  get_cached (fun _ _ => Raise (HTTPError 503)) "1593648000" 5 "u" Demo.empty_world
  = (Raise (HTTPError 503), World ∅ ["u"] []).
Proof. reflexivity. Qed.

(** ** Stale-cache eviction *)

Lemma unlink_loop_lookup (zap_time : Z) (names : list string)
    (fs : gmap string string) (name : string) :
  fold_left (fun acc n => if unlinked zap_time n then delete n acc else acc) names fs
    !! name
  = if decide (name ∈ names /\ unlinked zap_time name = true) then None else fs !! name.
Proof.
  revert fs. induction names as [|n names IH]; intros fs; cbn [fold_left].
  - destruct (decide _) as [[H _]|_]; [by apply elem_of_nil in H | done].
  - rewrite IH. destruct (unlinked zap_time name) eqn:Hu.
    + destruct (decide (name ∈ names)) as [Hin|Hnin].
      * rewrite !decide_True; [done | | done]. split; [by right | done].
      * rewrite (decide_False (P := name ∈ names /\ true = true)) by (by intros [? _]).
        destruct (decide (n = name)) as [->|Hne].
        -- rewrite Hu, lookup_delete_eq, decide_True; [done|]. split; [left | done].
        -- rewrite decide_False.
           ++ destruct (unlinked zap_time n); [by rewrite lookup_delete_ne | done].
           ++ rewrite elem_of_cons. by intros [[?|?] _].
    + rewrite !decide_False by (by intros [_ ?]).
      destruct (unlinked zap_time n) eqn:Hn; [|done].
      rewrite lookup_delete_ne; [done|]. intros ->. congruence.
Qed.

Lemma glob_elem (fs : gmap string string) (name : string) :
  name ∈ glob fs <-> is_Some (fs !! name).
Proof.
  unfold glob. rewrite list_elem_of_fmap. split.
  - intros [[k v] [-> Hin]]. apply elem_of_map_to_list in Hin. by exists v.
  - intros [v Hv]. exists (name, v). split; [done|]. by apply elem_of_map_to_list.
Qed.

Lemma remove_stale_cache_lookup (zap_time : Z) (fs : gmap string string)
    (name : string) :
  remove_stale_cache zap_time fs !! name =
  if unlinked zap_time name then None else fs !! name.
Proof.
  unfold remove_stale_cache. rewrite unlink_loop_lookup.
  destruct (unlinked zap_time name) eqn:Hu.
  - case_decide as H; [done|].
    destruct (fs !! name) as [v|] eqn:Hv; [|done].
    exfalso. apply H. split; [|done]. apply glob_elem. by exists v.
  - case_decide as H; [|done]. by destruct H.
Qed.

(** C2, as the code has it. Eviction keeps an entry, content unchanged,
    exactly when its name reads as an integer at or after the first bucket;
    it removes every other entry: those whose name reads as an integer
    before the first bucket, and also those whose name does not read as an
    integer. *)
Theorem remove_stale_cache_keeps (zap_time : Z) (fs : gmap string string)
    (name : string) :
  (forall content,
     remove_stale_cache zap_time fs !! name = Some content <->
     fs !! name = Some content /\ exists t, Py.int name = Some t /\ zap_time <= t)
  /\ (remove_stale_cache zap_time fs !! name = None <->
      fs !! name = None
      \/ (exists t, Py.int name = Some t /\ t < zap_time)
      \/ Py.int name = None).
Proof.
  rewrite remove_stale_cache_lookup. unfold unlinked.
  destruct (Py.int name) as [t|] eqn:Hint.
  - destruct (Z.leb_spec zap_time t) as [Hle|Hlt]; simpl.
    + split; [intros content; split|split].
      * intros H. split; [done|]. by exists t.
      * by intros [H _].
      * by left.
      * intros [H|[(t' & [= <-] & Hlt)|H]]; [done | lia | discriminate].
    + split; [intros content; split|split].
      * discriminate.
      * intros [_ (t' & [= <-] & Hle)]. lia.
      * intros _. right. left. by exists t.
      * done.
  - split; [intros content; split|split].
    + discriminate.
    + intros [_ (t' & Hd & _)]. discriminate.
    + intros _. by right; right.
    + done.
Qed.

(** The example of the specification: keys 100, 200 and 300 with first
    bucket 200. *)
Example remove_stale_cache_100_200_300 :
  remove_stale_cache 200 {[ "100" := "a"; "200" := "b"; "300" := "c" ]}
  = {[ "200" := "b"; "300" := "c" ]}.
Proof.
  apply map_eq. intros name. rewrite remove_stale_cache_lookup.
  unfold unlinked.
  destruct (decide (name = "100")) as [->|H1]; [by vm_compute|].
  destruct (decide (name = "200")) as [->|H2]; [by vm_compute|].
  destruct (decide (name = "300")) as [->|H3]; [by vm_compute|].
  rewrite !lookup_insert_ne, !lookup_singleton_ne by done.
  by destruct (Py.int name) as [t|]; [destruct (negb _)|].
Qed.

(** C2, as the specification has it, fails: a file whose name does not read
    as an integer is removed. *)
Lemma remove_stale_cache_unlinks_other_files :
  Py.int "notes.txt" = None
  /\ ({[ "200" := "b"; "notes.txt" := "n" ]} : gmap string string) !! "notes.txt" = Some "n"
  /\ remove_stale_cache 200 {[ "200" := "b"; "notes.txt" := "n" ]} !! "notes.txt" = None
  /\ Spec.evict_stale 200 {[ "200" := "b"; "notes.txt" := "n" ]} !! "notes.txt" = Some "n"
  /\ remove_stale_cache 200 {[ "200" := "b"; "notes.txt" := "n" ]}
     <> Spec.evict_stale 200 {[ "200" := "b"; "notes.txt" := "n" ]}.
Proof.
  assert (Hcode : remove_stale_cache 200 {[ "200" := "b"; "notes.txt" := "n" ]}
                    !! "notes.txt" = None).
  { rewrite remove_stale_cache_lookup. reflexivity. }
  assert (Hspec : Spec.evict_stale 200 {[ "200" := "b"; "notes.txt" := "n" ]}
                    !! "notes.txt" = Some "n").
  { unfold Spec.evict_stale. apply map_lookup_filter_Some. split; [|reflexivity].
    by vm_compute. }
  split; [by vm_compute|].
  split; [by vm_compute|].
  split; [exact Hcode|].
  split; [exact Hspec|].
  intros Heq. rewrite Heq, Hspec in Hcode. discriminate Hcode.
Qed.

(** ** The listings transform *)

Section TransformFacts.

Import Feed.

Context {datetime : Type}.
Variable fromisoformat : string -> option datetime.
Variable strftime : datetime -> string.

Lemma each_Ok {A B} (f : A -> result B) (l : list A) (bs : list B) :
  each f l = Ok bs <-> Forall2 (fun a b => f a = Ok b) l bs.
Proof.
  revert bs. induction l as [|a l IH]; intros bs; simpl.
  - split.
    + intros [= <-]. constructor.
    + intros H. by inversion H.
  - destruct (f a) as [b|e] eqn:Hfa; simpl.
    + destruct (each f l) as [bs'|e] eqn:Hl; simpl.
      * split.
        -- intros [= <-]. constructor; [done|]. by apply IH.
        -- intros H. inversion H as [|? b' ? bs'' Hb Hrest]; subst.
           apply IH in Hrest. congruence.
      * split; [discriminate|].
        intros H. inversion H as [|? b' ? bs'' Hb Hrest]; subst.
        apply IH in Hrest. discriminate.
    + split; [discriminate|].
      intros H. inversion H; subst. congruence.
Qed.

Lemma programme_of_bare c_id ev p :
  programme_of fromisoformat strftime c_id ev = Ok p -> bare_programme c_id p.
Proof.
  unfold programme_of, programme_out, sub_el.
  destruct (tm_parse fromisoformat (startTime ev)) as [s|]; [|discriminate].
  destruct (tm_parse fromisoformat (endTime ev)) as [t|]; [|discriminate].
  simpl. intros [= <-]. by exists (strftime s), (strftime t).
Qed.

Lemma event_body_programme c_id out vars ev :
  event_body fromisoformat strftime c_id (out, vars) ev =
  match programme_of fromisoformat strftime c_id ev with
  | Ok p => Ok (out ++ [p], Some (Locals ev (program ev) (length out)))
  | Raise e => Raise e
  end.
Proof.
  unfold event_body, programme_of.
  destruct (tm_parse fromisoformat (startTime ev)) as [s|]; [|done].
  by destruct (tm_parse fromisoformat (endTime ev)) as [t|].
Qed.

(** The event loop appends one bare [programme] per event and leaves the
    local variables bound to the last event. *)
Lemma event_loop c_id evs out vars :
  for_each (event_body fromisoformat strftime c_id) evs (out, vars) =
  match each (programme_of fromisoformat strftime c_id) evs with
  | Ok ps =>
      Ok (out ++ ps,
          match last evs with
          | Some ev => Some (Locals ev (program ev) (length out + length evs - 1))
          | None => vars
          end)
  | Raise e => Raise e
  end.
Proof.
  revert out vars. induction evs as [|ev evs IH]; intros out vars.
  - simpl. by rewrite app_nil_r.
  - cbn [for_each each]. rewrite event_body_programme.
    destruct (programme_of fromisoformat strftime c_id ev) as [p|e]; [|done].
    cbn [bind]. rewrite IH.
    destruct (each (programme_of fromisoformat strftime c_id) evs) as [ps|e]; [|done].
    cbn [bind]. rewrite <- app_assoc. cbn [app].
    rewrite last_cons, length_app. cbn [length].
    destruct evs as [|ev' evs]; cbn [last].
    + replace (length out + S (length (@nil event)) - 1)%nat with (length out)
        by (cbn [length]; lia).
      done.
    + destruct (last (ev' :: evs)) eqn:Hl; [|by apply last_None in Hl].
      replace (length out + 1 + length (ev' :: evs) - 1)%nat
        with (length out + S (length (ev' :: evs)) - 1)%nat by lia.
      done.
Qed.

(** C10. For a channel with at least one event, the step of the channel
    appends one [programme] element per event; the detail elements are
    appended once, to the element of the channel's last event; the elements
    of the earlier events keep their three attributes and have no
    sub-element. *)
Theorem channel_body_details (c : channel) (evs : list event) (ev : event)
    (ps : list element) (els : list element)
    (out : list element) (vars : option locals) :
  events c = evs ++ [ev] ->
  each (programme_of fromisoformat strftime (channel_id c)) (events c) = Ok ps ->
  details ev (program ev) = Ok els ->
  exists ps0 p,
    ps = ps0 ++ [p]
    /\ length ps0 = length evs
    /\ Forall (bare_programme (channel_id c)) ps
    /\ channel_body fromisoformat strftime (out, vars) c =
       Ok (out ++ ps0 ++ [extend els p],
           Some (Locals ev (default_desc (program ev)) (length out + length evs)))
    /\ children_of (extend els p) = els.
Proof.
  intros Hevs Hps Hdet.
  assert (HF : Forall2 (fun a b => programme_of fromisoformat strftime (channel_id c) a = Ok b) (evs ++ [ev]) ps).
  { rewrite <- Hevs. by apply each_Ok. }
  apply Forall2_app_inv_l in HF as (ps0 & ps1 & Hps0 & Hps1 & ->).
  inversion Hps1 as [|? p ? ps1' Hp Hnil]; subst. inversion Hnil; subst.
  exists ps0, p.
  assert (Hbare : bare_programme (channel_id c) p) by by eapply programme_of_bare.
  split; [done|]. split; [by rewrite (Forall2_length _ _ _ Hps0)|].
  split.
  { apply Forall_app. split.
    - clear -Hps0. induction Hps0; constructor; [by eapply programme_of_bare | done].
    - by constructor. }
  split.
  - unfold channel_body. rewrite event_loop, Hps. cbn [bind].
    rewrite Hevs, last_snoc, length_app. cbn [length]. rewrite Hdet. cbn [bind].
    do 2 f_equal.
    + replace (length out + (length evs + 1) - 1)%nat
        with (length out + (length ps0 + 0))%nat
        by (rewrite (Forall2_length _ _ _ Hps0); lia).
      by rewrite !alter_app_r.
    + do 2 f_equal. lia.
  - destruct Hbare as (s & t & ->). done.
Qed.


(** *** The channel table *)

Lemma for_each_invariant {A B} (I : A -> Prop) (body : A -> B -> result A)
    (items : list B) :
  (forall a b a', I a -> body a b = Ok a' -> I a') ->
  forall a a', I a -> for_each body items a = Ok a' -> I a'.
Proof.
  intros Hbody. induction items as [|b items IH]; intros a a' Ha; cbn [for_each].
  - by intros [= <-].
  - destruct (body a b) as [a1|e] eqn:Hb; [|discriminate].
    apply IH. by eapply Hbody.
Qed.

Lemma has_tag_extend name els p : has_tag name (extend els p) = has_tag name p.
Proof. by destruct p. Qed.

Lemma channels_in_app out1 out2 :
  channels_in (out1 ++ out2) = channels_in out1 ++ channels_in out2.
Proof. unfold channels_in. apply List.filter_app. Qed.

Lemma channels_in_channel_out (cs : list channel) :
  channels_in (channel_out <$> cs) = channel_out <$> cs.
Proof.
  unfold channels_in. induction cs as [|c cs IH]; [done|].
  rewrite fmap_cons. cbn [List.filter].
  change (has_tag "channel" (channel_out c)) with true. cbv iota.
  by rewrite IH.
Qed.

Lemma channels_in_alter (out : list element) (i : nat) (p : element) els :
  out !! i = Some p -> tag_of p = "programme" ->
  channels_in (alter (extend els) i out) = channels_in out.
Proof.
  unfold channels_in. revert i.
  induction out as [|q out IH]; intros i Hi Htag; [done|].
  destruct i as [|i]; cbn [alter list_alter List.filter].
  - injection Hi as ->. rewrite has_tag_extend.
    unfold has_tag. by rewrite Htag.
  - by rewrite (IH i Hi Htag).
Qed.

Lemma event_body_keeps table c_id st ev st' :
  keeps table st ->
  event_body fromisoformat strftime c_id st ev = Ok st' ->
  keeps table st'.
Proof.
  destruct st as [out vars]. intros [Htable _]. cbn [fst] in Htable.
  rewrite event_body_programme.
  destruct (programme_of fromisoformat strftime c_id ev) as [p|e] eqn:Hp;
    [|discriminate].
  intros [= <-]. apply programme_of_bare in Hp as (s & t & ->).
  split.
  - cbn [fst]. rewrite channels_in_app, Htable. cbn. apply app_nil_r.
  - intros l [= <-]. cbn [fst l_prog_out]. eexists. split.
    + by apply list_lookup_middle.
    + done.
Qed.

Lemma channel_body_keeps table st c st' :
  keeps table st ->
  channel_body fromisoformat strftime st c = Ok st' ->
  keeps table st'.
Proof.
  intros Hst. unfold channel_body.
  destruct (for_each (event_body fromisoformat strftime (channel_id c)) (events c) st)
    as [[out1 vars1]|e] eqn:Hloop; [|discriminate].
  assert (H1 : keeps table (out1, vars1)).
  { eapply (for_each_invariant (keeps table)); [|exact Hst|exact Hloop].
    intros a b a' Ha Hb. by eapply event_body_keeps. }
  cbn [bind].
  destruct vars1 as [[ev prog_in prog_out]|]; [|discriminate].
  destruct (details ev prog_in) as [els|e]; [|discriminate].
  cbn [bind]. intros [= <-].
  destruct H1 as [Htable Hbound]. cbn [fst] in Htable.
  destruct (Hbound _ eq_refl) as (p & Hp & Htag). cbn [fst l_prog_out] in Hp.
  split.
  - cbn [fst]. by rewrite (channels_in_alter _ _ p).
  - intros l [= <-]. cbn [fst l_prog_out].
    exists (extend els p). split.
    + by rewrite list_lookup_alter_eq, Hp.
    + by destruct p.
Qed.

(** The channel table of one step of the transform. A step entered with
    [done_channels] unset appends one [channel] element per entry of its
    body's channel list and sets [done_channels]; a step entered with
    [done_channels] set appends no [channel] element. No step changes a
    [channel] element that is already in the document. *)
Theorem aggregate_channel_table (cs : list channel) (done_channels : bool)
    (st : list element * option locals) (done_channels' : bool)
    (st' : list element * option locals) :
  prog_out_bound st ->
  aggregate fromisoformat strftime cs done_channels st = Ok (done_channels', st') ->
  done_channels' = true
  /\ channels_in (fst st') =
     channels_in (fst st) ++ (if done_channels then [] else channel_out <$> cs)
  /\ prog_out_bound st'.
Proof.
  destruct st as [out vars]. intros Hbound. unfold aggregate.
  set (out1 := if done_channels then out else out ++ (channel_out <$> cs)).
  destruct (for_each (channel_body fromisoformat strftime) cs (out1, vars))
    as [st1|e] eqn:Hloop; [|discriminate].
  cbn [bind]. intros [= <- <-]. split; [done|].
  assert (H1 : keeps (channels_in out ++ (if done_channels then [] else channel_out <$> cs))
                     (out1, vars)).
  { split.
    - cbn [fst]. unfold out1. destruct done_channels.
      + by rewrite app_nil_r.
      + by rewrite channels_in_app, channels_in_channel_out.
    - intros l Hl. destruct (Hbound l Hl) as (p & Hp & Htag). cbn [fst] in *.
      exists p. split; [|done]. unfold out1. destruct done_channels; [done|].
      by apply lookup_app_l_Some. }
  eapply (for_each_invariant (keeps _)) in Hloop; [exact Hloop| |exact H1].
  intros a b a' Ha Hb. by eapply channel_body_keeps.
Qed.

End TransformFacts.

Lemma channel_body_details_witness :
  exists ps0 p,
    [ Element "programme"
        [("start", "20200628120000 +0000"); ("stop", "20200628130000 +0000");
         ("channel", "I2.1.10161.zap2it.com")] None [];
      Element "programme"
        [("start", "20200628130000 +0000"); ("stop", "20200628140000 +0000");
         ("channel", "I2.1.10161.zap2it.com")] None [] ] = ps0 ++ [p]
    /\ length ps0 = length [Demo.ev_series]
    /\ Forall (bare_programme (channel_id Demo.ch_two_events)) (ps0 ++ [p])
    /\ channel_body Demo.fromisoformat Demo.strftime ([], None) Demo.ch_two_events =
       Ok ([] ++ ps0 ++ [extend [ Element "title" lang_en (Some "Weather") [];
                                  Element "desc" lang_en (Some "Unavailable") [];
                                  Element "length" [("units", "minutes")] (Some "60") [];
                                  Element "category" lang_en (Some "news") [];
                                  Element "genre" lang_en (Some "news") [] ] p],
           Some (Locals Demo.ev_weather (default_desc (Feed.program Demo.ev_weather))
                        (length (@nil element) + length [Demo.ev_series]))).
Proof.
  destruct (channel_body_details Demo.fromisoformat Demo.strftime
              Demo.ch_two_events [Demo.ev_series] Demo.ev_weather
              [ Element "programme"
                  [("start", "20200628120000 +0000"); ("stop", "20200628130000 +0000");
                   ("channel", "I2.1.10161.zap2it.com")] None [];
                Element "programme"
                  [("start", "20200628130000 +0000"); ("stop", "20200628140000 +0000");
                   ("channel", "I2.1.10161.zap2it.com")] None [] ]
              [ Element "title" lang_en (Some "Weather") [];
                Element "desc" lang_en (Some "Unavailable") [];
                Element "length" [("units", "minutes")] (Some "60") [];
                Element "category" lang_en (Some "news") [];
                Element "genre" lang_en (Some "news") [] ]
              [] None) as (ps0 & p & H1 & H2 & H3 & H4 & _).
  - reflexivity.
  - vm_compute. reflexivity.
  - vm_compute. reflexivity.
  - exists ps0, p. rewrite <- H1. repeat split; assumption.
Defined.

Lemma aggregate_channel_table_witness :
  channels_in (fst (Demo.aggregated Demo.body_Y)) =
  channels_in [] ++ (channel_out <$> Demo.decoded Demo.body_Y).
Proof.
  destruct (aggregate_channel_table Demo.fromisoformat Demo.strftime
              (Demo.decoded Demo.body_Y) false ([], None) true
              (Demo.aggregated Demo.body_Y)) as (_ & H & _).
  - intros l Hl. discriminate Hl.
  - vm_compute. reflexivity.
  - exact H.
Defined.

(** ** The detail block on one event *)

Section Details.

Import Feed.

(** The [desc] element carries the short description, or the text
    "Unavailable" when the program has none. *)
Lemma desc_el_text (prog_in : prog) :
  desc_el prog_in =
  sub_el "desc" (Some (match shortDesc prog_in with
                       | Some s => s
                       | None => "Unavailable"
                       end)) lang_en.
Proof.
  unfold desc_el, default_desc, sub_el.
  destruct prog_in as [t et [s|] ry se ep]; cbn; [|done].
  by destruct s.
Qed.

Lemma desc_el_unavailable (prog_in : prog) :
  shortDesc prog_in = None ->
  desc_el prog_in = Element "desc" [("lang", "en")] (Some "Unavailable") [].
Proof. intros H. rewrite desc_el_text, H. done. Qed.

(** Whenever the detail block runs to its end, a [desc] element is among
    the elements it appends. *)
Lemma details_has_desc (ev : event) (prog_in : prog) (els : list element) :
  details ev prog_in = Ok els -> desc_el prog_in ∈ els.
Proof.
  unfold details. destruct (episode_num_els prog_in) as [ep|e]; [|discriminate].
  cbn [bind]. intros [= <-].
  do 2 (apply elem_of_app; right). apply list_elem_of_here.
Qed.

(** The three [episode-num] elements of a program whose season and episode
    are present and read as integers. *)
Lemma episode_num_els_parsed (prog_in : prog) (se ep : string) (s_ e_ : Z) :
  season prog_in = Some se -> episode prog_in = Some ep ->
  se <> "" -> ep <> "" ->
  Py.int se = Some s_ -> Py.int ep = Some e_ ->
  episode_num_els prog_in =
  Ok [ Element "episode-num" [("system", "common")]
         (Some ("S" +:+ fmt_02d s_ +:+ "E" +:+ fmt_02d e_)) [];
       Element "episode-num" [("system", "xmltv_ns")]
         (Some (str (s_ - 1) +:+ "." +:+ str (e_ - 1) +:+ ".")) [];
       Element "episode-num" [("system", "SxxExx" +:+ String Json.dquote ">S")]
         (Some ("S" +:+ fmt_02d s_ +:+ "E" +:+ fmt_02d e_)) [] ].
Proof.
  intros Hse Hep Hs He Hints Hinte. unfold episode_num_els.
  rewrite Hse, Hep. cbn [truthy_opt str_of_opt].
  destruct se as [|c se]; [done|]. destruct ep as [|c' ep]; [done|].
  cbn [truthy andb]. rewrite Hints, Hinte. unfold sub_el.
  by destruct (str (s_ - 1)).
Qed.

Example episode_num_els_1_5 :
  episode_num_els (Prog (Some "Series") None None None (Some "1") (Some "5")) =
  Ok [ Element "episode-num" [("system", "common")] (Some "S01E05") [];
       Element "episode-num" [("system", "xmltv_ns")] (Some "0.4.") [];
       Element "episode-num" [("system", "SxxExx" +:+ String Json.dquote ">S")]
         (Some "S01E05") [] ].
Proof. reflexivity. Qed.

(** The [new] element of the detail block: present exactly when the flags
    hold "New" and not "live". *)
Lemma new_els_spec (ev : event) :
  new_els ev =
  if contains "New" (flag ev) && negb (contains "live" (flag ev))
  then [Element "new" [] None []] else [].
Proof. done. Qed.

Lemma contains_elem (x : string) (xs : list string) :
  contains x xs = true <-> x ∈ xs.
Proof.
  unfold contains. rewrite existsb_exists. split.
  - intros (y & Hin & Heq). apply String.eqb_eq in Heq as ->.
    by apply list_elem_of_In.
  - intros Hin. exists x. split; [by apply list_elem_of_In | apply String.eqb_refl].
Qed.

Example new_els_flags :
  new_els (Event "" "" "" [] None None ["New"] (Prog None None None None None None))
    = [Element "new" [] None []]
  /\ new_els (Event "" "" "" [] None None ["New"; "live"]
                (Prog None None None None None None)) = [].
Proof. split; reflexivity. Qed.

End Details.

(** ** [main] *)

Section Main.

Context {datetime : Type}.
Variable fromisoformat : string -> option datetime.
Variable strftime : datetime -> string.
Variable urlopen : nat -> string -> result string.

Lemma get_cached_requests key delay url w :
  requests (snd (get_cached urlopen key delay url w)) = requests w
  \/ requests (snd (get_cached urlopen key delay url w)) = requests w ++ [url].
Proof.
  unfold get_cached, sleep, write_file, set_files.
  destruct (files w !! key); [by left|]. right.
  destruct (urlopen _ url) as [body|e]; [|destruct e as [| |code| | | |]];
    cbn; try done.
  - by destruct (delay <? 0).
  - destruct (code =? 400); [|done]. cbn. by destruct (delay <? 0).
Qed.

(** X25. A run opens at most one URL, the one of the last planned bucket;
    no other bucket of the plan is fetched, decoded or aggregated. *)
Lemma main_requests (a : args) (now : Z) (w : world) :
  requests (snd (main fromisoformat strftime urlopen a now w)) = requests w
  \/ exists t, last (plan a now) = Some t
       /\ requests (snd (main fromisoformat strftime urlopen a now w))
          = requests w ++ [grid_url (parameters a t)].
Proof.
  unfold main. destruct (zap_time_window a =? 0); [by left|].
  rewrite planning_loop_last.
  destruct (last (plan a now)) as [t|]; cbn [fmap option_fmap option_map]; [|by left].
  set (w1 := set_files _ w).
  destruct (get_cached_requests (str t) (delay a) (grid_url (parameters a t)) w1) as [H|H];
    destruct (get_cached urlopen (str t) (delay a) (grid_url (parameters a t)) w1)
      as [fetched w2]; cbn [snd] in *.
  - by left.
  - right. by exists t.
Qed.

(** X26. The document of a run is the transform of one body, the one
    stored under the key of the last planned bucket; the bodies of the
    other buckets have no part in it. *)
Lemma main_document (a : args) (now : Z) (w w' : world) (doc : element) :
  main fromisoformat strftime urlopen a now w = (Ok doc, w') ->
  exists t body d cs st',
    last (plan a now) = Some t
    /\ files w' !! str t = Some body
    /\ Json.loads body = Ok d
    /\ Feed.channels_of d = Ok cs
    /\ aggregate fromisoformat strftime cs false ([], None) = Ok (true, st')
    /\ doc = Element "tv" tv_attrib None (fst st').
Proof.
  unfold main. destruct (zap_time_window a =? 0); [discriminate|].
  rewrite planning_loop_last.
  destruct (last (plan a now)) as [t|]; cbn [fmap option_fmap option_map];
    [|discriminate].
  set (w1 := set_files _ w).
  destruct (get_cached urlopen (str t) (delay a) (grid_url (parameters a t)) w1)
    as [fetched w2] eqn:Hget.
  destruct fetched as [body|e]; cbn [bind]; [|discriminate].
  destruct (Json.loads body) as [d|e] eqn:Hd; cbn [bind]; [|discriminate].
  destruct (Feed.channels_of d) as [cs|e] eqn:Hcs; cbn [bind]; [|discriminate].
  destruct (aggregate fromisoformat strftime cs false ([], None)) as [[dc st']|e] eqn:Hagg;
    cbn [bind]; [|discriminate].
  intros [= <- <-].
  exists t, body, d, cs, st'. split; [done|].
  split; [by eapply get_cached_stored|].
  split; [done|]. split; [done|]. split; [|done].
  assert (dc = true) as ->; [|done].
  unfold aggregate in Hagg.
  destruct (for_each _ cs _); [|discriminate]. by injection Hagg as <- _.
Qed.

End Main.

(** C1. Two buckets of 84 hours; the network serves bucket A (two channels,
    one event each) and bucket B (the same channels, one more event each).
    The run opens the URL of bucket B only, and its document has two
    [channel] and two [programme] elements, those of bucket B: bucket A is
    not fetched and its two events are missing. *)
Theorem main_two_buckets_last_only :
  plan (Demo.sample_args 84) Demo.now = [1593345600; 1593648000]
  /\ requests (snd (Demo.run 84 [(1593345600, Demo.body_A); (1593648000, Demo.body_B)]
                      Demo.empty_world))
     = [grid_url (parameters (Demo.sample_args 84) 1593648000)]
  /\ length (Demo.in_document "channel"
               (Demo.run 84 [(1593345600, Demo.body_A); (1593648000, Demo.body_B)]
                  Demo.empty_world)) = 2%nat
  /\ length (Demo.in_document "programme"
               (Demo.run 84 [(1593345600, Demo.body_A); (1593648000, Demo.body_B)]
                  Demo.empty_world)) = 2%nat
  /\ Demo.in_document "programme"
       (Demo.run 84 [(1593345600, Demo.body_A); (1593648000, Demo.body_B)]
          Demo.empty_world)
     = List.filter (has_tag "programme") (fst (Demo.aggregated Demo.body_B)).
Proof. vm_compute. repeat split; reflexivity. Qed.

(** C3. Two buckets of 84 hours; bucket A lists channel 2.1 only and
    bucket B lists channel 7.1 only. The channel table of the document is
    the one of the later bucket B: channel 2.1 of bucket A, the first bucket
    with a non-empty channel list, has no [channel] element, and channel
    7.1, which appears only in the later bucket, has one. The table the
    specification describes is the one of bucket A. *)
Lemma main_channel_table_from_last_bucket :
  plan (Demo.sample_args 84) Demo.now = [1593345600; 1593648000]
  /\ Demo.in_document "channel"
       (Demo.run 84 [(1593345600, Demo.body_X); (1593648000, Demo.body_Y)]
          Demo.empty_world)
     = channel_out <$> Demo.decoded Demo.body_Y
  /\ Spec.channel_table [Demo.decoded Demo.body_X; Demo.decoded Demo.body_Y]
     = channel_out <$> Demo.decoded Demo.body_X
  /\ Demo.in_document "channel"
       (Demo.run 84 [(1593345600, Demo.body_X); (1593648000, Demo.body_Y)]
          Demo.empty_world)
     <> Spec.channel_table [Demo.decoded Demo.body_X; Demo.decoded Demo.body_Y].
Proof.
  split; [by vm_compute|]. split; [by vm_compute|]. split; [by vm_compute|].
  vm_compute. discriminate.
Qed.

(** C4. One channel with two events, the first with a short description:
    the [programme] of the first event has no [desc] element; only the one
    of the last event has. *)
Theorem main_desc_on_last_event_only :
  Demo.decoded Demo.body_two_events = [Demo.ch_two_events]
  /\ findall "desc" <$> Demo.in_document "programme"
       (Demo.run 168 [(1593043200, Demo.body_two_events)] Demo.empty_world)
     = [ []; [Element "desc" [("lang", "en")] (Some "Unavailable") []] ].
Proof. vm_compute. split; reflexivity. Qed.

(** C8. The same run: the first event is season 1, episode 5, and no
    [episode-num] element is in the document. *)
Theorem main_episode_num_on_last_event_only :
  Feed.season (Feed.program Demo.ev_series) = Some "1"
  /\ Feed.episode (Feed.program Demo.ev_series) = Some "5"
  /\ Demo.decoded Demo.body_two_events = [Demo.ch_two_events]
  /\ findall "episode-num" <$> Demo.in_document "programme"
       (Demo.run 168 [(1593043200, Demo.body_two_events)] Demo.empty_world)
     = [ []; [] ].
Proof. vm_compute. repeat split; reflexivity. Qed.

(** C9. The same run: the first event has the flag "New" and not "live",
    and no [new] element is in the document. *)
Theorem main_new_on_last_event_only :
  Feed.flag Demo.ev_series = ["New"]
  /\ Demo.decoded Demo.body_two_events = [Demo.ch_two_events]
  /\ findall "new" <$> Demo.in_document "programme"
       (Demo.run 168 [(1593043200, Demo.body_two_events)] Demo.empty_world)
     = [ []; [] ].
Proof. vm_compute. repeat split; reflexivity. Qed.

(** A 400 answer does not end the run: the document is written, empty. *)
Example main_continues_after_400 :
  fst (main Demo.fromisoformat Demo.strftime (fun _ _ => Raise (HTTPError 400))
         (Demo.sample_args 3) Demo.now Demo.empty_world)
  = Ok (Element "tv" tv_attrib None []).
Proof. by vm_compute. Qed.

(** Any other status ends the run with that error. *)
Example main_aborts_on_503 :
  fst (main Demo.fromisoformat Demo.strftime (fun _ _ => Raise (HTTPError 503))
         (Demo.sample_args 3) Demo.now Demo.empty_world)
  = Raise (HTTPError 503).
Proof. by vm_compute. Qed.

(** A span that leaves the range empty ends the run before any fetch. *)
Example main_empty_plan :
  fst (main Demo.fromisoformat Demo.strftime (fun _ _ => Ok placeholder)
         (Demo.sample_args 200) Demo.now Demo.empty_world)
  = Raise (NameError "parameters").
Proof. by vm_compute. Qed.

(** * Further properties *)

(** ** Cache keys: [str] and [int] *)

Lemma digit_of_ascii_of_digit (d : Z) :
  0 <= d < 10 -> digit_of (ascii_of_digit d) = Some d.
Proof.
  intros Hd.
  assert (H : d = 0 \/ d = 1 \/ d = 2 \/ d = 3 \/ d = 4 \/ d = 5 \/ d = 6
              \/ d = 7 \/ d = 8 \/ d = 9) by lia.
  repeat destruct H as [->|H]; try reflexivity. by subst.
Qed.

Lemma digit_not_space (c : ascii) (d : Z) :
  digit_of c = Some d -> isspace c = false.
Proof.
  unfold digit_of, isspace. cbv zeta.
  generalize (Z.of_nat (nat_of_ascii c)). intros n.
  destruct (48 <=? n) eqn:H1; [|discriminate].
  destruct (n <=? 57) eqn:H2; [|discriminate]. intros _.
  apply Z.leb_le in H1, H2.
  destruct (Z.leb_spec 9 n), (Z.leb_spec n 13), (Z.eqb_spec n 32);
    try reflexivity; lia.
Qed.



Lemma lstrip_no_space (s : string) :
  all_chars not_space s = true -> lstrip s = s.
Proof.
  destruct s as [|c s]; [done|]. cbn. unfold not_space.
  by destruct (isspace c).
Qed.

Lemma rstrip_no_space (s : string) :
  all_chars not_space s = true -> rstrip s = s.
Proof.
  induction s as [|c s IH]; [done|]. cbn [all_chars rstrip]. unfold not_space at 1.
  intros H. apply andb_prop in H as [Hc Hs]. rewrite (IH Hs).
  destruct (isspace c); [discriminate|]. by destruct s.
Qed.

Lemma digits_fuel_no_space (fuel : nat) (n : Z) (acc : string) :
  0 <= n -> all_chars not_space acc = true ->
  all_chars not_space (digits_fuel fuel n acc) = true.
Proof.
  revert n acc. induction fuel as [|fuel IH]; intros n acc Hn Hacc; [done|].
  cbn [digits_fuel]. cbv zeta.
  assert (Hc : all_chars not_space (String (ascii_of_digit (n mod 10)) acc) = true).
  { cbn [all_chars]. rewrite Hacc, andb_true_r. unfold not_space.
    rewrite (digit_not_space _ (n mod 10)); [done|].
    apply digit_of_ascii_of_digit. apply Z.mod_pos_bound. lia. }
  destruct (n <? 10); [done|]. apply IH; [|done].
  apply Z.div_pos; lia.
Qed.

(** Reading back the digits that [digits_fuel] writes in front of [acc]. *)
Lemma int_digits_digits_fuel (fuel : nat) (n : Z) (acc : string) :
  0 <= n < 2 ^ Z.of_nat (S fuel) ->
  exists k, 0 <= k /\ forall a prev,
    int_digits a prev (digits_fuel (S fuel) n acc) = int_digits (a * 10 ^ k + n) true acc.
Proof.
  revert n acc. induction fuel as [|fuel IH]; intros n acc Hn.
  - exists 1. split; [lia|]. intros a prev.
    change (2 ^ Z.of_nat 1) with 2 in Hn.
    cbn [digits_fuel]. cbv zeta.
    destruct (n <? 10) eqn:E; [|apply Z.ltb_ge in E; lia].
    cbn [int_digits]. rewrite Z.mod_small by lia.
    rewrite digit_of_ascii_of_digit by lia. f_equal. lia.
  - cbn [digits_fuel]. cbv zeta.
    destruct (n <? 10) eqn:E.
    + apply Z.ltb_lt in E. exists 1. split; [lia|]. intros a prev.
      cbn [int_digits]. rewrite Z.mod_small by lia.
      rewrite digit_of_ascii_of_digit by lia. f_equal. lia.
    + apply Z.ltb_ge in E.
      destruct (IH (n / 10) (String (ascii_of_digit (n mod 10)) acc)) as (k & Hk & Hread).
      { split; [apply Z.div_pos; lia|].
        apply Z.div_lt_upper_bound; [lia|].
        rewrite (Nat2Z.inj_succ (S fuel)), Z.pow_succ_r in Hn by lia. lia. }
      exists (k + 1). split; [lia|]. intros a prev.
      rewrite Hread. cbn [int_digits].
      rewrite digit_of_ascii_of_digit by (apply Z.mod_pos_bound; lia).
      f_equal. rewrite Z.pow_add_r by lia.
      pose proof (Z.div_mod n 10). lia.
Qed.

Lemma digits_fuel_head (fuel : nat) (n : Z) (acc : string) :
  0 <= n ->
  exists c t d, digits_fuel (S fuel) n acc = String c t /\ digit_of c = Some d.
Proof.
  revert n acc. induction fuel as [|fuel IH]; intros n acc Hn.
  - cbn [digits_fuel]. cbv zeta.
    exists (ascii_of_digit (n mod 10)), acc, (n mod 10).
    split; [by destruct (n <? 10)|].
    apply digit_of_ascii_of_digit. apply Z.mod_pos_bound. lia.
  - cbn [digits_fuel]. cbv zeta. destruct (n <? 10).
    + eexists _, _, (n mod 10). split; [done|].
      apply digit_of_ascii_of_digit. apply Z.mod_pos_bound. lia.
    + apply IH. apply Z.div_pos; lia.
Qed.

(** A text that starts with a digit is read without a sign. *)
Lemma int_head_digit (c : ascii) (t : string) (d : Z) :
  digit_of c = Some d ->
  match String c t with
  | String "-" t' => Z.opp <$> int_digits 0 false t'
  | String "+" t' => int_digits 0 false t'
  | t' => int_digits 0 false t'
  end = int_digits 0 false (String c t).
Proof.
  destruct c as [[] [] [] [] [] [] [] []]; try discriminate; reflexivity.
Qed.

Lemma log2_fuel (n : Z) : 0 <= n -> n < 2 ^ Z.of_nat (S (Z.to_nat (Z.log2 n))).
Proof.
  intros Hn. rewrite Nat2Z.inj_succ, Z2Nat.id by apply Z.log2_nonneg.
  destruct (Z.eq_dec n 0) as [->|Hne]; [done|].
  apply Z.log2_spec. lia.
Qed.

(** [int(str(n)) == n]: the name of a cache file reads back as the bucket
    it was written for. *)
Lemma int_str (n : Z) : Py.int (str n) = Some n.
Proof.
  unfold Py.int, strip, str.
  destruct (n <? 0) eqn:Hneg.
  - apply Z.ltb_lt in Hneg.
    set (ds := digits_fuel _ (- n) EmptyString).
    assert (Hds : all_chars not_space ds = true)
      by (apply digits_fuel_no_space; [lia | done]).
    rewrite lstrip_no_space, rstrip_no_space
      by (cbn [all_chars]; by rewrite Hds).
    destruct (int_digits_digits_fuel (Z.to_nat (Z.log2 (- n))) (- n) EmptyString)
      as (k & _ & Hread).
    { split; [lia | apply log2_fuel; lia]. }
    fold ds in Hread. rewrite Hread. cbn. f_equal. lia.
  - apply Z.ltb_ge in Hneg.
    set (ds := digits_fuel _ n EmptyString).
    assert (Hds : all_chars not_space ds = true)
      by (apply digits_fuel_no_space; [lia | done]).
    rewrite lstrip_no_space, rstrip_no_space by done.
    destruct (digits_fuel_head (Z.to_nat (Z.log2 n)) n EmptyString Hneg)
      as (c & t & d & Hhead & Hc).
    fold ds in Hhead. rewrite Hhead, (int_head_digit c t d Hc), <- Hhead.
    destruct (int_digits_digits_fuel (Z.to_nat (Z.log2 n)) n EmptyString)
      as (k & _ & Hread).
    { split; [lia | by apply log2_fuel]. }
    fold ds in Hread. rewrite Hread. cbn. f_equal.
Qed.

(** ** Stale-cache eviction, further *)

Lemma unlinked_mono (zap_time zap_time' : Z) (name : string) :
  zap_time <= zap_time' ->
  unlinked zap_time name = true -> unlinked zap_time' name = true.
Proof.
  unfold unlinked. destruct (Py.int name) as [t|]; [|done].
  intros Hle H. apply negb_true_iff in H. apply Z.leb_gt in H.
  apply negb_true_iff. apply Z.leb_gt. lia.
Qed.

(** X1. The outcome of the eviction loop does not depend on the order in
    which the directory is listed: for every listing of the names, the files
    left are those whose name reads as an integer at or after the first
    bucket, a filter of the directory. *)
Theorem remove_stale_cache_any_order (zap_time : Z) (fs : gmap string string)
    (names : list string) :
  names ≡ₚ glob fs ->
  fold_left (fun acc name => if unlinked zap_time name then delete name acc else acc)
            names fs
  = filter (fun kv => unlinked zap_time kv.1 = false) fs.
Proof.
  intros Hperm. apply map_eq. intros name.
  rewrite unlink_loop_lookup. apply option_eq. intros v.
  rewrite map_lookup_filter_Some. cbn [fst].
  destruct (unlinked zap_time name) eqn:Hu.
  - destruct (decide _) as [_|Hn].
    + split; [discriminate | by intros [_ ?]].
    + split; [|by intros [_ ?]].
      intros Hv. exfalso. apply Hn. split; [|done].
      rewrite Hperm. apply glob_elem. by exists v.
  - rewrite decide_False by (by intros [_ ?]). split; [done | by intros [? _]].
Qed.

Lemma remove_stale_cache_any_order_witness :
  fold_left (fun acc name => if unlinked 200 name then delete name acc else acc)
            ["notes.txt"; "300"; "100"; "200"]
            {[ "100" := "a"; "200" := "b"; "300" := "c"; "notes.txt" := "n" ]}
  = filter (fun kv => unlinked 200 kv.1 = false)
           ({[ "100" := "a"; "200" := "b"; "300" := "c"; "notes.txt" := "n" ]}
              : gmap string string).
Proof.
  apply remove_stale_cache_any_order.
  apply NoDup_Permutation.
  - repeat (constructor; [rewrite ?elem_of_cons, elem_of_nil; intuition discriminate|]).
    constructor.
  - unfold glob. apply NoDup_fst_map_to_list.
  - intros name. rewrite glob_elem, !elem_of_cons, elem_of_nil.
    split.
    + intros [->|[->|[->|[->|[]]]]];
        [exists "n" | exists "c" | exists "a" | exists "b"]; by vm_compute.
    + intros [v Hv].
      destruct (decide (name = "100")) as [->|?]; [tauto|].
      destruct (decide (name = "200")) as [->|?]; [tauto|].
      destruct (decide (name = "300")) as [->|?]; [tauto|].
      destruct (decide (name = "notes.txt")) as [->|?]; [tauto|].
      rewrite !lookup_insert_ne, lookup_singleton_ne in Hv by done. discriminate.
Defined.

(** X2. Evicting for a first bucket and then for a later one leaves what
    evicting for the later one alone leaves; in particular eviction is
    idempotent. *)
Theorem remove_stale_cache_later (zap_time zap_time' : Z) (fs : gmap string string) :
  zap_time <= zap_time' ->
  remove_stale_cache zap_time' (remove_stale_cache zap_time fs)
  = remove_stale_cache zap_time' fs.
Proof.
  intros Hle. apply map_eq. intros name.
  rewrite !remove_stale_cache_lookup.
  destruct (unlinked zap_time' name) eqn:Hu'; [done|].
  destruct (unlinked zap_time name) eqn:Hu; [|done].
  rewrite (unlinked_mono _ _ _ Hle Hu) in Hu'. discriminate.
Qed.

Lemma remove_stale_cache_later_witness :
  remove_stale_cache 300 (remove_stale_cache 200 {[ "100" := "a"; "300" := "c" ]})
  = remove_stale_cache 300 {[ "100" := "a"; "300" := "c" ]}.
Proof. apply remove_stale_cache_later. lia. Defined.

(** X3. The file that [get_cached] writes for bucket [t] is named [str t];
    eviction for first bucket [zap_time] removes it exactly when
    [t < zap_time]. *)
Theorem bucket_file_unlinked (zap_time t : Z) (fs : gmap string string) :
  remove_stale_cache zap_time fs !! str t
  = if decide (zap_time <= t) then fs !! str t else None.
Proof.
  rewrite remove_stale_cache_lookup. unfold unlinked. rewrite int_str.
  destruct (Z.leb_spec zap_time t); cbn [negb].
  - by rewrite decide_True.
  - by rewrite decide_False by lia.
Qed.

(** ** The planner, further *)

(** X4. For every positive span, dividing 168 or not, the plan has
    168 // span buckets; each is a multiple of the window, and each window
    lies within the seven days that start at the first bucket: the hours
    that do not fill a window are left out. *)
Theorem plan_within_week (a : args) (now t : Z) :
  0 < zap_timespan a ->
  Z.of_nat (length (plan a now)) = 168 / zap_timespan a
  /\ (t ∈ plan a now ->
      (zap_time_window a | t)
      /\ first_zap_time a now <= t
      /\ t + zap_time_window a <= first_zap_time a now + 7 * 24 * 3600).
Proof.
  intros Hpos.
  assert (Hw : 0 < zap_time_window a) by (unfold zap_time_window; lia).
  assert (Hc : 0 <= 168 / zap_timespan a) by (apply Z.div_pos; lia).
  split.
  - rewrite plan_length, bucket_count_pos by done. lia.
  - intros Hin. apply list_elem_of_lookup in Hin as [i Hi].
    rewrite plan_lookup, bucket_count_pos in Hi by done.
    case_decide as Hlt; [|discriminate]. injection Hi as <-.
    unfold i_time_of. split; [|split].
    + apply Z.divide_add_r; [apply first_zap_time_aligned; lia|].
      apply Z.divide_factor_r.
    + nia.
    + pose proof (Z.mul_div_le 168 (zap_timespan a) Hpos).
      unfold zap_time_window in *.
      assert (Z.of_nat i + 1 <= 168 / zap_timespan a) by lia.
      nia.
Qed.

Lemma plan_within_week_witness :
  Z.of_nat (length (plan (Demo.sample_args 5) Demo.now)) = 168 / 5
  /\ (1593558000 ∈ plan (Demo.sample_args 5) Demo.now ->
      (18000 | 1593558000)
      /\ first_zap_time (Demo.sample_args 5) Demo.now <= 1593558000
      /\ 1593558000 + 18000
         <= first_zap_time (Demo.sample_args 5) Demo.now + 7 * 24 * 3600).
Proof. apply (plan_within_week (Demo.sample_args 5) Demo.now 1593558000). reflexivity. Defined.

(** ** The bucket cache, further *)

Section CacheMore.

Variable urlopen : nat -> string -> result string.

(** X5. [get_cached] never removes or rewrites a file that is in the cache
    directory, whatever the outcome of the call. *)
Theorem get_cached_keeps_files key delay url w name content :
  files w !! name = Some content ->
  files (snd (get_cached urlopen key delay url w)) !! name = Some content.
Proof.
  intros Hname. unfold get_cached, sleep, write_file, set_files.
  destruct (files w !! key) as [c|] eqn:Hkey; [done|].
  assert (Hne : key <> name) by congruence.
  destruct (urlopen _ url) as [body|e]; [|destruct e as [| |code| | | |]];
    cbn; try done.
  - destruct (delay <? 0); cbn; by rewrite lookup_insert_ne.
  - destruct (code =? 400); [|done]. cbn.
    destruct (delay <? 0); cbn; by rewrite lookup_insert_ne.
Qed.


End CacheMore.

Lemma get_cached_keeps_files_witness :
  files (snd (get_cached (fun _ _ => Ok "new") "200" 5 "u"
                (World {[ "100" := "old" ]} [] []))) !! "100" = Some "old".
Proof. apply get_cached_keeps_files. reflexivity. Defined.


(** ** The plan and the cache together *)

Lemma bucket_count_nonpos (a : args) :
  zap_timespan a <= 0 \/ 168 < zap_timespan a -> bucket_count a <= 0.
Proof.
  unfold bucket_count. change (7 * 24) with 168. intros [Hle|Hgt].
  - destruct (Z.eq_dec (zap_timespan a) 0) as [->|Hne]; [reflexivity|].
    replace (zap_timespan a) with (- (- zap_timespan a)) by lia.
    rewrite Z.quot_opp_r by lia.
    pose proof (Z.quot_pos 168 (- zap_timespan a)). lia.
  - rewrite Z.quot_small; lia.
Qed.

Lemma plan_nil (a : args) (now : Z) :
  zap_timespan a <= 0 \/ 168 < zap_timespan a -> plan a now = [].
Proof.
  intros H. apply bucket_count_nonpos in H.
  unfold plan, range. by replace (Z.to_nat (bucket_count a)) with 0%nat by lia.
Qed.

Lemma plan_elem (a : args) (now t : Z) :
  t ∈ plan a now -> 0 < zap_timespan a /\ first_zap_time a now <= t.
Proof.
  intros Hin.
  assert (Hpos : 0 < zap_timespan a).
  { destruct (Z.lt_ge_cases 0 (zap_timespan a)) as [|Hle]; [done|].
    rewrite plan_nil in Hin by (left; lia). by apply elem_of_nil in Hin. }
  split; [done|].
  apply list_elem_of_lookup in Hin as [i Hi].
  rewrite plan_lookup in Hi. case_decide; [|discriminate]. injection Hi as <-.
  unfold i_time_of, zap_time_window. nia.
Qed.

Lemma plan_same_window (a : args) (now now' : Z) :
  first_zap_time a now' = first_zap_time a now -> plan a now' = plan a now.
Proof.
  intros H. unfold plan. apply list_fmap_ext. intros _ i _.
  unfold i_time_of. by rewrite H.
Qed.

Lemma str_inj (n m : Z) : str n = str m -> n = m.
Proof.
  intros H. assert (Hs : Py.int (str n) = Py.int (str m)) by by rewrite H.
  rewrite !int_str in Hs. by injection Hs.
Qed.

(** X7. The eviction at the start of a run never removes the cache file of
    a bucket of the run's own plan. *)
Theorem plan_files_survive (a : args) (now t : Z) (fs : gmap string string) :
  t ∈ plan a now ->
  remove_stale_cache (first_zap_time a now) fs !! str t = fs !! str t.
Proof.
  intros Hin. apply plan_elem in Hin as [_ Hle].
  rewrite remove_stale_cache_lookup. unfold unlinked. rewrite int_str.
  destruct (Z.leb_spec (first_zap_time a now) t); [done | lia].
Qed.

Lemma plan_files_survive_witness :
  remove_stale_cache (first_zap_time (Demo.sample_args 84) Demo.now)
    {[ "1593648000" := "b"; "1593000000" := "old" ]} !! str 1593648000
  = ({[ "1593648000" := "b"; "1593000000" := "old" ]} : gmap string string)
      !! str 1593648000.
Proof.
  apply (plan_files_survive (Demo.sample_args 84) Demo.now 1593648000).
  apply list_elem_of_lookup. exists 1%nat. reflexivity.
Defined.

(** X8. The buckets of a plan have pairwise distinct cache keys: no two
    buckets of a run share a cache file. *)
Theorem plan_keys_distinct (a : args) (now : Z) :
  NoDup (str <$> plan a now).
Proof.
  destruct (Z.lt_ge_cases 0 (zap_timespan a)) as [Hpos|Hle].
  - unfold plan, range. rewrite <- !list_fmap_compose.
    apply NoDup_fmap_2; [|apply NoDup_seq].
    intros i j Hij. cbn in Hij. apply str_inj in Hij.
    unfold i_time_of, zap_time_window in Hij. nia.
  - rewrite plan_nil by (left; lia). constructor.
Qed.

(** ** [main], further *)

Section MainMore.

Context {datetime : Type}.
Variable fromisoformat : string -> option datetime.
Variable strftime : datetime -> string.

(** [main] once the plan is known not to be empty: eviction, one call of
    [get_cached] for the last bucket, and the transform of what it
    returns. *)
Lemma main_last_bucket urlopen (a : args) (now t : Z) (w : world) :
  last (plan a now) = Some t ->
  main fromisoformat strftime urlopen a now w =
  let w1 := set_files (remove_stale_cache (first_zap_time a now) (files w)) w in
  (body <- fst (get_cached urlopen (str t) (delay a) (grid_url (parameters a t)) w1) ;;
   document_of fromisoformat strftime body,
   snd (get_cached urlopen (str t) (delay a) (grid_url (parameters a t)) w1)).
Proof.
  intros Hlast.
  assert (Hpos : 0 < zap_timespan a).
  { apply last_Some_elem_of in Hlast. by apply plan_elem in Hlast as [? _]. }
  unfold main. destruct (Z.eqb_spec (zap_time_window a) 0) as [H0|_].
  { unfold zap_time_window in H0. lia. }
  rewrite planning_loop_last, Hlast. cbn [fmap option_fmap option_map].
  cbv zeta.
  by destruct (get_cached urlopen (str t) (delay a) (grid_url (parameters a t)) _).
Qed.

Lemma get_cached_files urlopen key delay url w content w' :
  get_cached urlopen key delay url w = (Ok content, w') ->
  files w' = <[key := content]> (files w).
Proof.
  unfold get_cached, sleep, write_file, set_files.
  destruct (files w !! key) as [c|] eqn:Hc.
  - intros [= <- <-]. by rewrite insert_id.
  - destruct (urlopen _ url) as [body|e]; [|destruct e as [| |code| | | |]];
      try discriminate.
    + cbn. destruct (delay <? 0); [discriminate|]. by intros [= <- <-].
    + destruct (code =? 400); [|discriminate].
      cbn. destruct (delay <? 0); [discriminate|]. by intros [= <- <-].
Qed.

Lemma get_cached_other urlopen key delay url w name :
  name <> key ->
  files (snd (get_cached urlopen key delay url w)) !! name = files w !! name.
Proof.
  intros Hne. unfold get_cached, sleep, write_file, set_files.
  destruct (files w !! key) as [c|] eqn:Hkey; [done|].
  destruct (urlopen _ url) as [body|e]; [|destruct e as [| |code| | | |]];
    cbn; try done.
  - destruct (delay <? 0); cbn; by rewrite lookup_insert_ne.
  - destruct (code =? 400); [|done]. cbn.
    destruct (delay <? 0); cbn; by rewrite lookup_insert_ne.
Qed.

(** Evicting again, for the same first bucket, a directory that holds the
    evicted files and the file of a bucket at or after the first one. *)
Lemma remove_stale_cache_settled (zap_time t : Z) (fs : gmap string string)
    (body : string) :
  zap_time <= t ->
  remove_stale_cache zap_time (<[str t := body]> (remove_stale_cache zap_time fs))
  = <[str t := body]> (remove_stale_cache zap_time fs).
Proof.
  intros Hle. apply map_eq. intros name.
  rewrite remove_stale_cache_lookup.
  destruct (decide (name = str t)) as [->|Hne].
  - unfold unlinked. rewrite int_str.
    by destruct (Z.leb_spec zap_time t); [|lia].
  - rewrite lookup_insert_ne by done. rewrite remove_stale_cache_lookup.
    by destruct (unlinked zap_time name).
Qed.

Lemma set_files_id (w : world) : set_files (files w) w = w.
Proof. by destruct w. Qed.

(** X9. A run that wrote its document leaves a cache from which any later
    run in the same window writes the same document, whatever the network
    would answer: no URL is opened, nothing is slept and no file changes. *)
Theorem main_rerun_from_cache urlopen urlopen' (a : args) (now now' : Z)
    (w w' : world) (doc : element) :
  main fromisoformat strftime urlopen a now w = (Ok doc, w') ->
  first_zap_time a now' = first_zap_time a now ->
  main fromisoformat strftime urlopen' a now' w' = (Ok doc, w').
Proof.
  intros Hrun Hwin.
  destruct (last (plan a now)) as [t|] eqn:Hlast.
  2:{ unfold main in Hrun. rewrite planning_loop_last, Hlast in Hrun.
      cbn in Hrun. by destruct (zap_time_window a =? 0). }
  assert (Hle : first_zap_time a now <= t).
  { apply last_Some_elem_of in Hlast. by apply plan_elem in Hlast as [_ ?]. }
  rewrite (main_last_bucket _ _ _ t) in Hrun by done. cbv zeta in Hrun.
  destruct (get_cached urlopen (str t) (delay a) (grid_url (parameters a t)) _)
    as [fetched w2] eqn:Hget.
  cbn [fst snd] in Hrun. injection Hrun as Hdoc ->.
  destruct fetched as [body|e]; [|discriminate]. cbn [bind] in Hdoc.
  pose proof (get_cached_files _ _ _ _ _ _ _ Hget) as Hfiles.
  cbn [files set_files] in Hfiles.
  rewrite (main_last_bucket _ _ _ t) by (by rewrite (plan_same_window _ _ _ Hwin)).
  cbv zeta. rewrite Hwin, Hfiles, remove_stale_cache_settled by done.
  rewrite <- Hfiles, set_files_id.
  rewrite (get_cached_hit _ _ _ _ _ body) by (by eapply get_cached_stored).
  cbn [fst snd bind]. by rewrite Hdoc.
Qed.

(** X10. A run changes the cache directory in two ways only: the eviction
    at its start, and the file of the last planned bucket. Every other name
    is as the eviction left it. *)
Theorem main_cache_footprint urlopen (a : args) (now t : Z) (w : world)
    (name : string) :
  last (plan a now) = Some t ->
  name <> str t ->
  files (snd (main fromisoformat strftime urlopen a now w)) !! name
  = remove_stale_cache (first_zap_time a now) (files w) !! name.
Proof.
  intros Hlast Hne. rewrite (main_last_bucket _ _ _ t) by done.
  cbv zeta. cbn [snd]. by rewrite get_cached_other.
Qed.

(** X11. When the last bucket is not in the cache and the server answers
    its URL with status 400, the run does not fail: it writes a document
    with no channel and no programme, and stores the placeholder under the
    key of the bucket. *)
Theorem main_skips_400 urlopen (a : args) (now t : Z) (w : world) :
  last (plan a now) = Some t ->
  files w !! str t = None ->
  0 <= delay a ->
  urlopen (length (requests w)) (grid_url (parameters a t)) = Raise (HTTPError 400) ->
  main fromisoformat strftime urlopen a now w =
  (Ok (Element "tv" tv_attrib None []),
   World (<[str t := placeholder]> (remove_stale_cache (first_zap_time a now) (files w)))
         (requests w ++ [grid_url (parameters a t)])
         (slept w ++ [delay a])).
Proof.
  intros Hlast Hmiss Hdelay Hnet.
  rewrite (main_last_bucket _ _ _ t) by done. cbv zeta.
  unfold get_cached, sleep, write_file, set_files. cbn [files requests slept].
  rewrite remove_stale_cache_lookup, Hmiss.
  destruct (unlinked _ (str t)); rewrite Hnet; cbn;
    (destruct (delay a <? 0) eqn:E; [lia|]); cbn [fst snd bind];
    f_equal; by vm_compute.
Qed.

(** X12. Any other HTTP status ends the run with that error: no document,
    nothing stored under the key of the bucket, nothing slept. *)
Theorem main_http_error urlopen (a : args) (now t : Z) (w : world) (code : Z) :
  last (plan a now) = Some t ->
  files w !! str t = None ->
  code <> 400 ->
  urlopen (length (requests w)) (grid_url (parameters a t)) = Raise (HTTPError code) ->
  main fromisoformat strftime urlopen a now w =
  (Raise (HTTPError code),
   World (remove_stale_cache (first_zap_time a now) (files w))
         (requests w ++ [grid_url (parameters a t)])
         (slept w)).
Proof.
  intros Hlast Hmiss Hcode Hnet.
  rewrite (main_last_bucket _ _ _ t) by done. cbv zeta.
  unfold get_cached, sleep, write_file, set_files. cbn [files requests slept].
  rewrite remove_stale_cache_lookup, Hmiss.
  destruct (unlinked _ (str t)); rewrite Hnet;
    (destruct (Z.eqb_spec code 400); [lia|]); done.
Qed.


(** X14. A span that is negative or longer than a week, within the range
    where the arithmetic of line 155 is exact, leaves the plan empty. The
    run still evicts the cache, for a first bucket computed from that span,
    and then ends with [NameError] before any fetch. *)
Theorem main_span_out_of_range urlopen (a : args) (now : Z) (w : world) :
  float_exact a now ->
  zap_timespan a < 0 \/ 168 < zap_timespan a ->
  main fromisoformat strftime urlopen a now w =
  (Raise (NameError "parameters"),
   set_files (remove_stale_cache (first_zap_time a now) (files w)) w).
Proof.
  intros _ Hspan. unfold main.
  destruct (Z.eqb_spec (zap_time_window a) 0) as [H0|_].
  { unfold zap_time_window in H0. lia. }
  rewrite planning_loop_last, plan_nil by lia. done.
Qed.

End MainMore.

Lemma main_rerun_from_cache_witness :
  exists doc w',
    Demo.run 168 [(1593043200, Demo.body_two_events)] Demo.empty_world = (Ok doc, w')
    /\ main Demo.fromisoformat Demo.strftime (fun _ _ => Raise (HTTPError 503))
         (Demo.sample_args 168) (Demo.now + 60) w' = (Ok doc, w').
Proof.
  destruct (Demo.run 168 [(1593043200, Demo.body_two_events)] Demo.empty_world)
    as [[doc|e] w'] eqn:Hrun.
  - exists doc, w'. split; [reflexivity|].
    apply (main_rerun_from_cache Demo.fromisoformat Demo.strftime
             (Demo.serve (Demo.sample_args 168) [(1593043200, Demo.body_two_events)])
             (fun _ _ => Raise (HTTPError 503))
             (Demo.sample_args 168) Demo.now (Demo.now + 60) Demo.empty_world w' doc).
    + exact Hrun.
    + reflexivity.
  - vm_compute in Hrun. discriminate Hrun.
Defined.

Lemma main_cache_footprint_witness :
  files (snd (Demo.run 84 [(1593648000, Demo.body_B)]
                (World {[ "1593345600" := Demo.body_A ]} [] []))) !! "1593345600"
  = remove_stale_cache (first_zap_time (Demo.sample_args 84) Demo.now)
      {[ "1593345600" := Demo.body_A ]} !! "1593345600".
Proof.
  apply (main_cache_footprint Demo.fromisoformat Demo.strftime
           (Demo.serve (Demo.sample_args 84) [(1593648000, Demo.body_B)])
           (Demo.sample_args 84) Demo.now 1593648000).
  - reflexivity.
  - vm_compute. discriminate.
Defined.

Lemma main_skips_400_witness :
  main Demo.fromisoformat Demo.strftime (fun _ _ => Raise (HTTPError 400))
    (Demo.sample_args 3) Demo.now Demo.empty_world
  = (Ok (Element "tv" tv_attrib None []),
     World (<[str 1594155600 := placeholder]>
              (remove_stale_cache (first_zap_time (Demo.sample_args 3) Demo.now) ∅))
           ([] ++ [grid_url (parameters (Demo.sample_args 3) 1594155600)])
           ([] ++ [5])).
Proof.
  apply (main_skips_400 Demo.fromisoformat Demo.strftime (fun _ _ => Raise (HTTPError 400))
           (Demo.sample_args 3) Demo.now 1594155600 Demo.empty_world).
  - reflexivity.
  - reflexivity.
  - vm_compute. discriminate.
  - reflexivity.
Defined.

Lemma main_http_error_witness :
  main Demo.fromisoformat Demo.strftime (fun _ _ => Raise (HTTPError 503))
    (Demo.sample_args 3) Demo.now Demo.empty_world
  = (Raise (HTTPError 503),
     World (remove_stale_cache (first_zap_time (Demo.sample_args 3) Demo.now) ∅)
           ([] ++ [grid_url (parameters (Demo.sample_args 3) 1594155600)])
           []).
Proof.
  apply (main_http_error Demo.fromisoformat Demo.strftime (fun _ _ => Raise (HTTPError 503))
           (Demo.sample_args 3) Demo.now 1594155600 Demo.empty_world 503).
  - reflexivity.
  - reflexivity.
  - lia.
  - reflexivity.
Defined.


Lemma main_span_out_of_range_witness :
  main Demo.fromisoformat Demo.strftime (fun _ _ => Ok placeholder)
    (Demo.sample_args (-3)) Demo.now (World {[ "1593561600" := "b" ]} [] [])
  = (Raise (NameError "parameters"),
     set_files (remove_stale_cache (first_zap_time (Demo.sample_args (-3)) Demo.now)
                  {[ "1593561600" := "b" ]})
               (World {[ "1593561600" := "b" ]} [] [])).
Proof.
  apply (main_span_out_of_range Demo.fromisoformat Demo.strftime).
  - split; [split; [vm_compute; discriminate | reflexivity] | reflexivity].
  - left. reflexivity.
Defined.

(** ** The detail block, further *)

Section DetailsMore.

Import Feed.

Lemma count_tag_app name els1 els2 :
  count_tag name (els1 ++ els2) = (count_tag name els1 + count_tag name els2)%nat.
Proof. unfold count_tag. by rewrite List.filter_app, length_app. Qed.

Lemma count_tag_cons name e els :
  count_tag name (e :: els)
  = ((if has_tag name e then 1 else 0) + count_tag name els)%nat.
Proof. unfold count_tag. cbn [List.filter]. by destruct (has_tag name e). Qed.

Lemma count_tag_filter_els name ev :
  count_tag name (filter_els ev) =
  (((if String.eqb "category" name then 1 else 0)
    + (if String.eqb "genre" name then 1 else 0)) * length (filter_tags ev))%nat.
Proof.
  unfold filter_els. induction (filter_tags ev) as [|f fs IH]; [cbn; lia|].
  cbn [flat_map length]. rewrite count_tag_app, IH.
  unfold count_tag, sub_el, has_tag. cbn [List.filter tag_of].
  destruct (String.eqb "category" name), (String.eqb "genre" name); cbn [length]; lia.
Qed.

Lemma episode_num_els_cases (prog_in : prog) :
  episode_num_els prog_in = Raise ValueError
  \/ episode_num_els prog_in = Ok []
  \/ exists t1 t2 t3,
       episode_num_els prog_in =
       Ok [ Element "episode-num" [("system", "common")] t1 [];
            Element "episode-num" [("system", "xmltv_ns")] t2 [];
            Element "episode-num" [("system", "SxxExx" +:+ String Json.dquote ">S")]
                    t3 [] ].
Proof.
  unfold episode_num_els.
  destruct (truthy_opt (season prog_in) && truthy_opt (episode prog_in)); [|by right; left].
  destruct (Py.int (str_of_opt (season prog_in))) as [s_|]; [|by left].
  destruct (Py.int (str_of_opt (episode prog_in))) as [e_|]; [|by left].
  right; right. unfold sub_el. by eexists _, _, _.
Qed.

(** X15. The detail block fails in one way only: with [ValueError], and
    exactly when season and episode are both non-empty and one of them
    does not read as an integer. *)
Theorem details_fails_iff (ev : event) (prog_in : prog) (e : exn) :
  details ev prog_in = Raise e <->
  e = ValueError
  /\ truthy_opt (season prog_in) = true /\ truthy_opt (episode prog_in) = true
  /\ (Py.int (str_of_opt (season prog_in)) = None
      \/ Py.int (str_of_opt (episode prog_in)) = None).
Proof.
  unfold details, episode_num_els.
  destruct (truthy_opt (season prog_in)), (truthy_opt (episode prog_in)); cbn [andb bind];
    try (split; [discriminate | by intros (_ & ? & ? & _)]).
  destruct (Py.int (str_of_opt (season prog_in))) as [s_|],
           (Py.int (str_of_opt (episode prog_in))) as [e_|]; cbn [bind].
  - split; [discriminate | by intros (_ & _ & _ & [|])].
  - split; [intros [= <-]; tauto | by intros [-> _]].
  - split; [intros [= <-]; tauto | by intros [-> _]].
  - split; [intros [= <-]; tauto | by intros [-> _]].
Qed.

Lemma count_tag_same name tag els :
  Forall (fun e => tag_of e = tag) els ->
  count_tag name els = if String.eqb tag name then length els else 0%nat.
Proof.
  induction 1 as [|e els He _ IH]; [by destruct (String.eqb tag name)|].
  rewrite count_tag_cons, IH. unfold has_tag. rewrite He.
  by destruct (String.eqb tag name).
Qed.

Lemma title_els_tags prog_in : Forall (fun e => tag_of e = "title") (title_els prog_in).
Proof. unfold title_els. destruct (truthy_opt _); by repeat constructor. Qed.

Lemma sub_title_els_tags ev prog_in :
  Forall (fun e => tag_of e = "sub-title") (sub_title_els ev prog_in).
Proof.
  unfold sub_title_els. destruct (_ && _); [by repeat constructor|].
  destruct (truthy_opt _); by repeat constructor.
Qed.

Lemma icon_els_tags ev : Forall (fun e => tag_of e = "icon") (icon_els ev).
Proof. unfold icon_els. destruct (ev_thumbnail ev); by repeat constructor. Qed.

Lemma rating_els_tags ev : Forall (fun e => tag_of e = "rating") (rating_els ev).
Proof. unfold rating_els. destruct (truthy_opt _); by repeat constructor. Qed.

Lemma new_els_tags ev : Forall (fun e => tag_of e = "new") (new_els ev).
Proof. unfold new_els. destruct (_ && _); by repeat constructor. Qed.

(** X16. What the detail block appends, counted by element name: exactly
    one [desc] and one [length]; one [category] and one [genre] per filter
    tag; at most one [title], [sub-title], [icon], [rating] and [new]; and
    either no [episode-num] or three. *)
Theorem details_counts (ev : event) (prog_in : prog) (els : list element) :
  details ev prog_in = Ok els ->
  count_tag "desc" els = 1%nat
  /\ count_tag "length" els = 1%nat
  /\ count_tag "category" els = length (filter_tags ev)
  /\ count_tag "genre" els = length (filter_tags ev)
  /\ count_tag "title" els = (if truthy_opt (title prog_in) then 1 else 0)%nat
  /\ (count_tag "sub-title" els <= 1)%nat
  /\ count_tag "icon" els = match ev_thumbnail ev with Some _ => 1 | None => 0 end%nat
  /\ count_tag "rating" els = (if truthy_opt (rating ev) then 1 else 0)%nat
  /\ count_tag "new" els = length (new_els ev)
  /\ (count_tag "new" els <= 1)%nat
  /\ (count_tag "episode-num" els = 0%nat \/ count_tag "episode-num" els = 3%nat).
Proof.
  unfold details. intros Hdet.
  assert (Hc : exists ep,
    (ep = [] \/ exists e1 e2 e3, ep = [e1; e2; e3]
                 /\ Forall (fun e => tag_of e = "episode-num") ep)
    /\ forall name, count_tag name els =
       (count_tag name (title_els prog_in) + (count_tag name (sub_title_els ev prog_in)
        + ((if has_tag name (desc_el prog_in) then 1 else 0)
        + ((if has_tag name (length_el ev) then 1 else 0)
        + (count_tag name (filter_els ev) + (count_tag name (icon_els ev)
        + (count_tag name (rating_els ev)
        + (count_tag name ep + count_tag name (new_els ev)))))))))%nat).
  { destruct (episode_num_els_cases prog_in) as [Hep|[Hep|(t1 & t2 & t3 & Hep)]];
      rewrite Hep in Hdet; cbn [bind] in Hdet; [discriminate| |];
      injection Hdet as <-.
    - exists []. split; [by left|]. intros name.
      repeat (rewrite count_tag_app || rewrite count_tag_cons). reflexivity.
    - exists [ Element "episode-num" [("system", "common")] t1 [];
               Element "episode-num" [("system", "xmltv_ns")] t2 [];
               Element "episode-num" [("system", "SxxExx" +:+ String Json.dquote ">S")]
                       t3 [] ].
      split.
      + right. eexists _, _, _. split; [reflexivity | by repeat constructor].
      + intros name.
        rewrite !count_tag_app, 2!count_tag_cons, !count_tag_app.
        by rewrite <- (count_tag_app name [_; _; _] (new_els ev)). }
  destruct Hc as (ep & Hep & Hc). rewrite !Hc.
  assert (Hn : forall name, count_tag name ep =
                 if String.eqb "episode-num" name then length ep else 0%nat).
  { intros name. apply count_tag_same.
    destruct Hep as [->|(e1 & e2 & e3 & _ & H)]; [constructor | exact H]. }
  assert (Hl : length ep = 0%nat \/ length ep = 3%nat).
  { destruct Hep as [->|(e1 & e2 & e3 & -> & _)]; [by left | by right]. }
  rewrite !Hn, !count_tag_filter_els,
    !(count_tag_same _ _ _ (title_els_tags _)),
    !(count_tag_same _ _ _ (sub_title_els_tags _ _)),
    !(count_tag_same _ _ _ (icon_els_tags _)),
    !(count_tag_same _ _ _ (rating_els_tags _)),
    !(count_tag_same _ _ _ (new_els_tags _)).
  unfold desc_el, length_el, sub_el, has_tag. cbn.
  repeat split;
    unfold title_els, sub_title_els, icon_els, rating_els, new_els;
    repeat case_match; cbn [length]; lia.
Qed.

Lemma details_default_desc (ev : event) (prog_in : prog) :
  details ev (default_desc prog_in) = details ev prog_in.
Proof. by destruct prog_in as [t et [sd|] ry se ep]. Qed.

End DetailsMore.

Lemma details_fails_iff_witness :
  details Demo.ev_series
    (Feed.Prog (Some "Series") None None None (Some "one") (Some "5")) = Raise ValueError.
Proof.
  apply details_fails_iff.
  split; [reflexivity|]. split; [reflexivity|]. split; [reflexivity|].
  left. reflexivity.
Defined.

Lemma details_counts_witness :
  exists els,
    details Demo.ev_series (Feed.program Demo.ev_series) = Ok els
    /\ count_tag "desc" els = 1%nat
    /\ count_tag "category" els = 1%nat
    /\ count_tag "episode-num" els = 3%nat.
Proof.
  eexists. split; [reflexivity|].
  pose proof (details_counts Demo.ev_series (Feed.program Demo.ev_series) _ eq_refl)
    as (Hdesc & _ & Hcat & _).
  split; [exact Hdesc|]. split; [exact Hcat | reflexivity].
Defined.

(** ** The listings transform, further *)

Section TransformMore.

Import Feed.

Context {datetime : Type}.
Variable fromisoformat : string -> option datetime.
Variable strftime : datetime -> string.

Lemma extend_extend els1 els2 p :
  extend els2 (extend els1 p) = extend (els1 ++ els2) p.
Proof. destruct p. cbn. by rewrite app_assoc. Qed.

Lemma count_tag_alter name els i out :
  count_tag name (alter (extend els) i out) = count_tag name out.
Proof.
  revert i. induction out as [|q out IH]; intros i; [done|].
  destruct i as [|i]; cbn [alter list_alter]; rewrite !count_tag_cons.
  - by rewrite has_tag_extend.
  - by rewrite IH.
Qed.

Lemma count_tag_programmes c_id evs ps :
  each (programme_of fromisoformat strftime c_id) evs = Ok ps ->
  count_tag "programme" ps = length evs.
Proof.
  intros H. apply each_Ok in H.
  induction H as [|ev p evs ps Hp _ IH]; [done|].
  rewrite count_tag_cons, IH. apply programme_of_bare in Hp as (s & t & ->). done.
Qed.

Lemma channel_body_count st c st' :
  channel_body fromisoformat strftime st c = Ok st' ->
  count_tag "programme" (fst st')
  = (count_tag "programme" (fst st) + length (events c))%nat.
Proof.
  destruct st as [out vars]. unfold channel_body. rewrite event_loop.
  destruct (each _ (events c)) as [ps|e] eqn:Hps; [|discriminate]. cbn [bind].
  destruct (match last (events c) with Some _ => _ | None => _ end)
    as [[ev prog_in prog_out]|]; [|discriminate].
  destruct (details ev prog_in) as [els|e]; [|discriminate].
  cbn [bind]. intros [= <-]. cbn [fst].
  by rewrite count_tag_alter, count_tag_app, (count_tag_programmes _ _ _ Hps).
Qed.

Lemma count_tag_channel_out name (cs : list channel) :
  count_tag name (channel_out <$> cs)
  = if String.eqb "channel" name then length cs else 0%nat.
Proof.
  rewrite (count_tag_same _ "channel"); [by rewrite length_fmap|].
  apply Forall_fmap, Forall_forall. by intros c _.
Qed.

(** X17. A transform that reaches its end has appended exactly one
    [programme] element for every event of every channel of the body. *)
Theorem aggregate_programme_count (cs : list channel) (done_channels : bool)
    (out : list element) (vars : option locals) (done_channels' : bool)
    (st' : list element * option locals) :
  aggregate fromisoformat strftime cs done_channels (out, vars) = Ok (done_channels', st') ->
  count_tag "programme" (fst st')
  = (count_tag "programme" out + sum_list (length ∘ events <$> cs))%nat.
Proof.
  unfold aggregate.
  set (out1 := if done_channels then out else out ++ (channel_out <$> cs)).
  assert (H1 : count_tag "programme" out1 = count_tag "programme" out).
  { unfold out1. destruct done_channels; [done|].
    rewrite count_tag_app, count_tag_channel_out. cbn. lia. }
  destruct (for_each (channel_body fromisoformat strftime) cs (out1, vars))
    as [st1|e] eqn:Hloop; [|discriminate].
  cbn [bind]. intros [= _ <-]. rewrite <- H1.
  change out1 with (fst (out1, vars)). revert Hloop. generalize (out1, vars).
  clear. intros st. revert st.
  induction cs as [|c cs IH]; intros st; cbn [for_each fmap list_fmap sum_list].
  - intros [= <-]. lia.
  - destruct (channel_body fromisoformat strftime st c) as [st2|e] eqn:Hc; [|discriminate].
    intros Hrest. rewrite (IH _ Hrest), (channel_body_count _ _ _ Hc). cbn. lia.
Qed.

(** X18. The detail block runs after the event loop of a channel whether or
    not the loop ran. When the first channel of a body has no events,
    [prog_in] is not bound yet and the transform ends with [NameError]. *)
Theorem aggregate_first_channel_without_events (c : channel) (cs : list channel)
    (done_channels : bool) (out : list element) :
  events c = [] ->
  aggregate fromisoformat strftime (c :: cs) done_channels (out, None)
  = Raise (NameError "prog_in").
Proof.
  intros Hev. unfold aggregate. cbn [for_each]. unfold channel_body at 1.
  by rewrite Hev.
Qed.

(** X19. When a channel without events follows a channel with events, the
    detail block runs again on the variables the earlier channel left: the
    programme of that channel's last event gets its detail elements a
    second time, and no element is made for the channel without events. *)
Theorem channel_without_events_repeats_details (c c' : channel) (evs : list event)
    (ev : event) (ps0 : list element) (p : element) (els : list element)
    (out : list element) (vars : option locals) :
  events c = evs ++ [ev] ->
  events c' = [] ->
  each (programme_of fromisoformat strftime (channel_id c)) (events c) = Ok (ps0 ++ [p]) ->
  details ev (program ev) = Ok els ->
  for_each (channel_body fromisoformat strftime) [c; c'] (out, vars)
  = Ok (out ++ ps0 ++ [extend (els ++ els) p],
        Some (Locals ev (default_desc (program ev)) (length out + length evs))).
Proof.
  intros Hevs Hnone Hps Hdet.
  assert (Hlen : length ps0 = length evs).
  { apply each_Ok, Forall2_length in Hps. rewrite Hevs, !length_app in Hps.
    cbn in Hps. lia. }
  cbn [for_each]. unfold channel_body.
  rewrite event_loop, Hps. cbn [bind].
  rewrite Hevs, last_snoc, Hdet. cbn [bind].
  rewrite Hnone. cbn [for_each bind]. rewrite details_default_desc, Hdet. cbn [bind].
  rewrite length_app. cbn [length].
  replace (length out + (length evs + 1) - 1)%nat
    with (length out + (length ps0 + 0))%nat by lia.
  rewrite !alter_app_r. cbn [alter list_alter]. rewrite extend_extend.
  assert (Hdd : default_desc (default_desc (program ev)) = default_desc (program ev))
    by (by destruct (program ev) as [t et [sd|] ry se ep]).
  rewrite Hdd. repeat f_equal. lia.
Qed.

End TransformMore.

Lemma aggregate_programme_count_witness :
  exists done_channels' st',
    aggregate Demo.fromisoformat Demo.strftime [Demo.ch_two_events] false ([], None)
    = Ok (done_channels', st')
    /\ count_tag "programme" (fst st') = 2%nat.
Proof.
  eexists _, _. split; [reflexivity|].
  exact (aggregate_programme_count Demo.fromisoformat Demo.strftime
           [Demo.ch_two_events] false [] None _ _ eq_refl).
Defined.

Lemma aggregate_first_channel_without_events_witness :
  aggregate Demo.fromisoformat Demo.strftime
    [Feed.Channel "4.1" "10162" "KBBB" None []; Demo.ch_two_events] false ([], None)
  = Raise (NameError "prog_in").
Proof. apply aggregate_first_channel_without_events. reflexivity. Defined.

Lemma channel_without_events_repeats_details_witness :
  for_each (channel_body Demo.fromisoformat Demo.strftime)
    [Demo.ch_two_events; Feed.Channel "4.1" "10162" "KBBB" None []] ([], None)
  = Ok ([] ++ [ Element "programme"
                  [("start", "20200628120000 +0000"); ("stop", "20200628130000 +0000");
                   ("channel", "I2.1.10161.zap2it.com")] None [] ]
           ++ [ extend
                  ([ Element "title" [("lang", "en")] (Some "Weather") [];
                     Element "desc" [("lang", "en")] (Some "Unavailable") [];
                     Element "length" [("units", "minutes")] (Some "60") [];
                     Element "category" [("lang", "en")] (Some "news") [];
                     Element "genre" [("lang", "en")] (Some "news") [] ]
                   ++
                   [ Element "title" [("lang", "en")] (Some "Weather") [];
                     Element "desc" [("lang", "en")] (Some "Unavailable") [];
                     Element "length" [("units", "minutes")] (Some "60") [];
                     Element "category" [("lang", "en")] (Some "news") [];
                     Element "genre" [("lang", "en")] (Some "news") [] ])
                  (Element "programme"
                     [("start", "20200628130000 +0000"); ("stop", "20200628140000 +0000");
                      ("channel", "I2.1.10161.zap2it.com")] None []) ],
        Some (Locals Demo.ev_weather (default_desc (Feed.program Demo.ev_weather))
                     (length (@nil element) + length [Demo.ev_series]))).
Proof.
  apply (channel_without_events_repeats_details Demo.fromisoformat Demo.strftime
           Demo.ch_two_events (Feed.Channel "4.1" "10162" "KBBB" None [])
           [Demo.ev_series] Demo.ev_weather); reflexivity.
Defined.

(** ** Texts the program builds *)

Lemma first_split_no_sep (sep : ascii) (s : string) :
  all_chars (fun c => negb (Ascii.eqb c sep)) (first (split sep s)) = true.
Proof.
  induction s as [|c s IH]; [done|]. cbn [split].
  destruct (Ascii.eqb c sep) eqn:E; [done|].
  destruct (split sep s) as [|w ws]; cbn in *; by rewrite E.
Qed.

(** X20. Every [channel] element has exactly one [icon], and its [src] has
    no query string: it holds no question mark. For a channel whose
    thumbnail is [null] the [src] is the text "None". *)
Theorem channel_icon_src (c : Feed.channel) :
  exists src,
    findall "icon" (channel_out c) = [Element "icon" [("src", src)] None []]
    /\ all_chars (fun ch => negb (Ascii.eqb ch "?")) src = true
    /\ (Feed.ch_thumbnail c = None -> src = "None").
Proof.
  eexists. split; [reflexivity|]. split.
  - apply first_split_no_sep.
  - by intros ->.
Qed.

Lemma prefix_nil (s : string) : String.prefix "" s = true.
Proof. by destruct s. Qed.

Lemma replace_Z_cons (c : ascii) (s : string) :
  replace_from "Z" "+00:00" 0 (String c s) =
  if Ascii.eqb c "Z" then "+00:00" +:+ replace_from "Z" "+00:00" 0 s
  else String c (replace_from "Z" "+00:00" 0 s).
Proof.
  cbn [replace_from]. change (String.length "Z" - 1)%nat with 0%nat.
  change (String.prefix "Z" (String c s)) with
    (if Ascii.ascii_dec "Z" c then String.prefix "" s else false).
  destruct (Ascii.ascii_dec "Z" c) as [<-|Hne].
  - by rewrite prefix_nil.
  - apply not_eq_sym, Ascii.eqb_neq in Hne. by rewrite Hne.
Qed.

Lemma replace_Z_app (s t : string) :
  replace "Z" "+00:00" (s +:+ t) = replace "Z" "+00:00" s +:+ replace "Z" "+00:00" t.
Proof.
  unfold replace. induction s as [|c s IH]; [done|].
  change (String c s +:+ t) with (String c (s +:+ t)).
  rewrite !replace_Z_cons, IH. by destruct (Ascii.eqb c "Z").
Qed.

Lemma replace_Z_none (s : string) :
  all_chars (fun c => negb (Ascii.eqb c "Z")) s = true ->
  replace "Z" "+00:00" s = s.
Proof.
  unfold replace. induction s as [|c s IH]; [done|].
  cbn [all_chars]. intros [Hc Hs]%andb_true_iff.
  apply negb_true_iff in Hc. by rewrite replace_Z_cons, Hc, IH.
Qed.

Section TmParse.

Context {datetime : Type}.
Variable fromisoformat : string -> option datetime.

(** X21. [tm_parse] reads a trailing [Z] as the offset [+00:00]; a text
    without [Z] reaches [fromisoformat] as it is, and a text that
    [fromisoformat] refuses gives [ValueError]. *)
Theorem tm_parse_Z (tm : string) :
  all_chars (fun c => negb (Ascii.eqb c "Z")) tm = true ->
  tm_parse fromisoformat (tm +:+ "Z") = tm_parse fromisoformat (tm +:+ "+00:00")
  /\ tm_parse fromisoformat tm =
     match fromisoformat tm with Some t => Ok t | None => Raise ValueError end.
Proof.
  intros Htm. unfold tm_parse.
  rewrite !replace_Z_app, (replace_Z_none tm) by done. done.
Qed.

End TmParse.

Lemma tm_parse_Z_witness :
  tm_parse Demo.fromisoformat ("2020-06-28T12:00" +:+ "Z")
  = tm_parse Demo.fromisoformat ("2020-06-28T12:00" +:+ "+00:00")
  /\ tm_parse Demo.fromisoformat "2020-06-28T12:00" =
     match Demo.fromisoformat "2020-06-28T12:00" with
     | Some t => Ok t
     | None => Raise ValueError
     end.
Proof. apply tm_parse_Z. reflexivity. Defined.

Lemma all_chars_app (p : ascii -> bool) (s t : string) :
  all_chars p (s +:+ t) = all_chars p s && all_chars p t.
Proof.
  induction s as [|c s IH]; [done|].
  change (String c s +:+ t) with (String c (s +:+ t)).
  cbn [all_chars]. by rewrite IH, andb_assoc.
Qed.

Lemma hex_digit_safe (n : Z) : 0 <= n < 16 -> always_safe (hex_digit n) = true.
Proof.
  intros Hn. rewrite <- (Z2Nat.id n) by lia.
  assert (Hk : (Z.to_nat n < 16)%nat) by lia.
  revert Hk. generalize (Z.to_nat n). clear. intros k Hk.
  do 16 (destruct k as [|k]; [reflexivity|]). lia.
Qed.

Lemma nat_of_ascii_bound (c : ascii) : 0 <= Z.of_nat (nat_of_ascii c) < 256.
Proof.
  split; [lia|]. pose proof (nat_ascii_bounded c). lia.
Qed.

Lemma quote_plus_url_chars (s : string) : all_chars url_char (quote_plus s) = true.
Proof.
  induction s as [|c s IH]; [done|]. cbn [quote_plus]. cbv zeta.
  destruct (always_safe c) eqn:Hsafe.
  - cbn [all_chars]. unfold url_char at 1. by rewrite Hsafe, IH.
  - destruct (Z.of_nat (nat_of_ascii c) =? 32).
    + cbn [all_chars]. by rewrite IH.
    + pose proof (nat_of_ascii_bound c) as Hb.
      cbn [all_chars]. unfold url_char at 2 3.
      rewrite !hex_digit_safe, IH; [done| |].
      * apply Z.mod_pos_bound. lia.
      * split; [apply Z.div_pos; lia | apply Z.div_lt_upper_bound; lia].
Qed.

Lemma all_chars_impl (p q : ascii -> bool) (s : string) :
  (forall c, p c = true -> q c = true) ->
  all_chars p s = true -> all_chars q s = true.
Proof.
  intros Hpq. induction s as [|c s IH]; [done|]. cbn.
  intros [Hc Hs]%andb_true_iff. by rewrite (Hpq c Hc), IH.
Qed.

Lemma url_char_grid (c : ascii) : url_char c = true -> grid_url_char c = true.
Proof. unfold grid_url_char. by intros ->. Qed.

Lemma quote_plus_grid_chars (s : string) : all_chars grid_url_char (quote_plus s) = true.
Proof. apply (all_chars_impl url_char); [apply url_char_grid | apply quote_plus_url_chars]. Qed.

Lemma urlencode_chars (d : list (string * string)) :
  all_chars grid_url_char (urlencode d) = true.
Proof.
  induction d as [|[k v] d IH]; [done|].
  destruct d as [|kv d].
  - cbn [urlencode]. by rewrite !all_chars_app, !quote_plus_grid_chars.
  - change (urlencode ((k, v) :: kv :: d))
      with (quote_plus k +:+ "=" +:+ quote_plus v +:+ "&" +:+ urlencode (kv :: d)).
    by rewrite !all_chars_app, !quote_plus_grid_chars, IH.
Qed.

(** X22. Whatever the arguments hold, the URL of a bucket is made of ASCII
    letters, digits and the characters [_.-~+%:/?=&] only: spaces and all
    other characters of the arguments are escaped. *)
Theorem grid_url_chars (a : args) (i_time : Z) :
  all_chars grid_url_char (grid_url (parameters a i_time)) = true.
Proof. unfold grid_url. by rewrite all_chars_app, urlencode_chars. Qed.

(** X23. The options [--pref] and [--is-override] have no effect: the
    query is built with the constants [m,p] and [true], so two runs whose
    arguments differ in these two only behave alike. *)
Theorem main_ignores_pref_and_override {datetime : Type}
    (fromisoformat : string -> option datetime) (strftime : datetime -> string)
    (urlopen : nat -> string -> result string)
    (a : args) (pref : string) (isOverride : bool) (now : Z) (w : world) :
  main fromisoformat strftime urlopen
    (Args (zap_aid a) (zap_country a) (delay a) (zap_device a) (zap_headendId a)
          isOverride (zap_languagecode a) pref (zap_timespan a) (zap_timezone a)
          (zap_userId a) (zap_postalCode a) (output_file a)) now w
  = main fromisoformat strftime urlopen a now w.
Proof. by destruct a. Qed.

Section DetailsText.

Import Feed.

Lemma sub_el_text name text kwargs : text_of (sub_el name text kwargs) <> Some "".
Proof. unfold sub_el. by destruct text as [[|c s]|]. Qed.

(** X24. No element of the detail block carries an empty text: a field
    that is an empty string in the feed gives an element without text, or
    no element. *)
Theorem details_no_empty_text (ev : event) (prog_in : prog) (els : list element) :
  details ev prog_in = Ok els ->
  Forall (fun e => text_of e <> Some ""
                   /\ Forall (fun e' => text_of e' <> Some "") (children_of e)) els.
Proof.
  set (P := fun e => text_of e <> Some ""
                     /\ Forall (fun e' => text_of e' <> Some "") (children_of e)).
  assert (Hsub : forall name text kwargs, P (sub_el name text kwargs)).
  { intros. split; [apply sub_el_text | constructor]. }
  assert (Hrating : forall r, P (Element "rating" [] None [sub_el "value" r []])).
  { intros r. split; [discriminate|]. repeat constructor. apply sub_el_text. }
  assert (Hep : forall ep, episode_num_els prog_in = Ok ep -> Forall P ep).
  { unfold episode_num_els. intros ep.
    destruct (_ && _); [|intros [= <-]; constructor].
    destruct (Py.int _); [|discriminate]. destruct (Py.int _); [|discriminate].
    intros [= <-]. repeat (constructor; [apply Hsub|]). constructor. }
  unfold details.
  destruct (episode_num_els prog_in) as [ep|e]; [|discriminate].
  cbn [bind]. intros [= <-]. specialize (Hep ep eq_refl).
  apply Forall_app. split.
  { unfold title_els. destruct (truthy_opt _); repeat (constructor; [apply Hsub|]);
      constructor. }
  apply Forall_app. split.
  { unfold sub_title_els. destruct (_ && _);
      [repeat (constructor; [apply Hsub|]); constructor|].
    destruct (truthy_opt _); repeat (constructor; [apply Hsub|]); constructor. }
  cbn [app]. do 2 (constructor; [apply Hsub|]).
  rewrite !Forall_app. repeat split.
  - unfold filter_els. induction (filter_tags ev) as [|f fs IH]; [constructor|].
    cbn [flat_map app]. repeat (constructor; [apply Hsub|]). exact IH.
  - unfold icon_els. destruct (ev_thumbnail ev); repeat (constructor; [apply Hsub|]);
      constructor.
  - unfold rating_els. destruct (truthy_opt _); repeat (constructor; [apply Hrating|]);
      constructor.
  - exact Hep.
  - unfold new_els. destruct (_ && _); repeat (constructor; [apply Hsub|]); constructor.
Qed.

End DetailsText.

Lemma details_no_empty_text_witness :
  Forall (fun e => text_of e <> Some ""
                   /\ Forall (fun e' => text_of e' <> Some "") (children_of e))
    [ desc_el (Feed.Prog None None (Some "") None None None);
      length_el (Feed.Event "" "" "" [] None None [] (Feed.Prog None None (Some "") None None None)) ].
Proof.
  apply (details_no_empty_text
           (Feed.Event "" "" "" [] None None [] (Feed.Prog None None (Some "") None None None))
           (Feed.Prog None None (Some "") None None None)).
  reflexivity.
Defined.

Lemma main_document_witness :
  exists doc w',
    Demo.run 168 [(1593043200, Demo.body_two_events)] Demo.empty_world = (Ok doc, w')
    /\ exists t body d cs st',
         last (plan (Demo.sample_args 168) Demo.now) = Some t
         /\ files w' !! str t = Some body
         /\ Json.loads body = Ok d
         /\ Feed.channels_of d = Ok cs
         /\ aggregate Demo.fromisoformat Demo.strftime cs false ([], None) = Ok (true, st')
         /\ doc = Element "tv" tv_attrib None (fst st').
Proof.
  destruct (Demo.run 168 [(1593043200, Demo.body_two_events)] Demo.empty_world)
    as [[doc|e] w'] eqn:Hrun.
  - exists doc, w'. split; [reflexivity|].
    exact (main_document Demo.fromisoformat Demo.strftime
             (Demo.serve (Demo.sample_args 168) [(1593043200, Demo.body_two_events)])
             (Demo.sample_args 168) Demo.now Demo.empty_world w' doc Hrun).
  - vm_compute in Hrun. discriminate Hrun.
Defined.
